(** * Contoso Cafe bot: the main dialog's dispatch logic

    A shallow embedding of the two [MainDialog] classes of the
    [50.contoso-cafe-bot] sample:

    - [dialogs/mainDialog/index.js] (module [V1]): the early dispatcher,
      whose child dialogs are still stubs;
    - the [MainDialog] class that follows the [OnTurnProperty] class in
      [dialogs/shared/stateProperties/onTurnProperty.js] (module [V2]):
      the dispatcher with [mainDispatch], interruption handling and the
      "who are you" and "what can you do" helpers.

    JavaScript values are modelled by [JSValue]; asynchronous methods by a
    state-and-exception monad [M] over the turn's [World] (dialog stack,
    outgoing activities, user profile).  The child dialogs, [JSON.parse],
    the channel adapter and the dialog names live outside the two source
    files and are collected in an environment [Env]. *)

From Stdlib Require Import String Ascii List Bool Arith Lia.
Import ListNotations.
Open Scope string_scope.

(** ** JavaScript values *)

(** The values that flow through the dispatcher: turn properties, entity
    values, dialog results and payloads.  A number is carried as its
    canonical [ToString] rendering; a string is a sequence of 8-bit
    characters, which agrees with JavaScript's strings on ASCII text. *)
#[warnings="-register-all"]
Inductive JSValue : Type :=
| JUndefined
| JNull
| JBool (b : bool)
| JNum (repr : string)
| JStr (s : string)
| JArr (items : list JSValue)
| JObj (fields : list (string * JSValue)).

(** [v ? ... : ...], [v || ...], [if (v)]: JavaScript truthiness. *)
Definition truthy (v : JSValue) : bool :=
  match v with
  | JUndefined | JNull => false
  | JBool b => b
  | JNum r => negb ((r =? "0") || (r =? "NaN"))
  | JStr s => negb (s =? "")
  | JArr _ | JObj _ => true
  end.

(** [v === s] for a string literal [s]. *)
Definition strictEqStr (v : JSValue) (s : string) : bool :=
  match v with
  | JStr t => t =? s
  | _ => false
  end.

Fixpoint lookup (k : string) (fields : list (string * JSValue)) : JSValue :=
  match fields with
  | [] => JUndefined
  | (k', v) :: rest => if k' =? k then v else lookup k rest
  end.

(** [ToString], as used by template literals and by [==] on objects. *)
Fixpoint toStr (v : JSValue) : string :=
  match v with
  | JUndefined => "undefined"
  | JNull => "null"
  | JBool true => "true"
  | JBool false => "false"
  | JNum r => r
  | JStr s => s
  | JArr items =>
      (fix join (l : list JSValue) : string :=
         match l with
         | [] => ""
         | x :: rest =>
             let here := match x with
                         | JUndefined | JNull => ""
                         | _ => toStr x
                         end in
             match rest with
             | [] => here
             | _ :: _ => here ++ "," ++ join rest
             end
         end) items
  | JObj _ => "[object Object]"
  end.

(** [v == s] for one of the two entity-name literals of the dispatcher
    ([userName_patternAny], [query]).  Neither is a numeric literal, so a
    number or boolean operand never compares equal; an array or object is
    converted to its string first. *)
Definition looseEqStr (v : JSValue) (s : string) : bool :=
  match v with
  | JStr t => t =? s
  | JArr _ | JObj _ => toStr v =? s
  | _ => false
  end.

(** ** Exceptions and results *)

Inductive Exn : Type :=
| TypeError (what : string).

(** The result of a property read [v.k], for the keys the dispatcher reads
    ([intent], [entities], [entityName], [entityValue], [text], [reason],
    [payload], [onTurnProperty]): none of them is a built-in property of
    strings, numbers or arrays. *)
Definition getProp (v : JSValue) (k : string) : Exn + JSValue :=
  match v with
  | JUndefined | JNull => inl (TypeError ("Cannot read property " ++ k))
  | JObj fields => inr (lookup k fields)
  | _ => inr JUndefined
  end.

(** [v[0]]. *)
Definition index0 (v : JSValue) : Exn + JSValue :=
  match v with
  | JUndefined | JNull => inl (TypeError "Cannot read property 0")
  | JArr [] => inr JUndefined
  | JArr (x :: _) => inr x
  | JStr EmptyString => inr JUndefined
  | JStr (String c _) => inr (JStr (String c EmptyString))
  | JObj fields => inr (lookup "0" fields)
  | _ => inr JUndefined
  end.

(** [items.filter(item => item.entityName == name)] on the items of an
    array: reading [entityName] of [undefined] or [null] throws. *)
Fixpoint filterItems (name : string) (items : list JSValue)
  : Exn + list JSValue :=
  match items with
  | [] => inr []
  | item :: rest =>
      match getProp item "entityName" with
      | inl e => inl e
      | inr n =>
          match filterItems name rest with
          | inl e => inl e
          | inr kept => inr (if looseEqStr n name then item :: kept else kept)
          end
      end
  end.

(** [(onTurnProperty.entities || []).filter(item => item.entityName == name)].
    A truthy [entities] that is not an array has no [filter] method. *)
Definition entitiesNamed (name : string) (onTurnProperty : JSValue)
  : Exn + list JSValue :=
  match getProp onTurnProperty "entities" with
  | inl e => inl e
  | inr es =>
      if truthy es then
        match es with
        | JArr items => filterItems name items
        | _ => inl (TypeError "filter is not a function")
        end
      else inr []
  end.

(** ** Strings *)

(** Text made of ASCII characters only.  On such text the 8-bit strings
    used here and JavaScript's strings are the same sequences, and
    [toUpperCase], [toLowerCase] and [trim] act as [upcase], [downcase] and
    [trim] below; the properties that depend on them are stated for ASCII
    text. *)
Fixpoint isAsciiText (s : string) : bool :=
  match s with
  | EmptyString => true
  | String c rest => (nat_of_ascii c <? 128)%nat && isAsciiText rest
  end.

(** [c.toUpperCase()] on one character, for the ASCII range. *)
Definition upcase (c : ascii) : ascii :=
  let n := nat_of_ascii c in
  if ((97 <=? n) && (n <=? 122))%nat then ascii_of_nat (n - 32) else c.

(** [userName.charAt(0).toUpperCase() + userName.slice(1)], for a name
    in ASCII text. *)
Definition capitalize (userName : string) : string :=
  match userName with
  | EmptyString => EmptyString
  | String c rest => String (upcase c) rest
  end.

(** ** Dialog results, activities and the turn's world *)

(** [DialogTurnStatus] of botbuilder-dialogs. *)
Inductive DialogTurnStatus : Type := empty | waiting | complete | cancelled.

Definition status_eqb (a b : DialogTurnStatus) : bool :=
  match a, b with
  | empty, empty | waiting, waiting
  | complete, complete | cancelled, cancelled => true
  | _, _ => false
  end.

(** A dialog turn result [{ status, result }]. *)
Record DialogTurnResult : Type := mkTurnResult {
  status : DialogTurnStatus;
  result : JSValue
}.

(** What an awaited call hands back to the dispatcher: nothing, a dialog
    turn result, or the [ResourceResponse] of a sent activity. *)
Inductive Returned : Type :=
| RUndefined
| RTurn (r : DialogTurnResult)
| RResource (id : string).

(** An outgoing activity: a plain message, or
    [MessageFactory.suggestedActions(actions, text)]. *)
Inductive Activity : Type :=
| Text (text : string)
| SuggestedActions (actions : list string) (text : string).

(** A frame of the dialog stack. *)
Record DialogInstance : Type := mkInstance {
  inst_id : string;
  inst_state : JSValue
}.

(** [userProfileProperty]. *)
Record UserProfile : Type := mkUserProfile {
  userName : string
}.

(** Everything a turn can read or change.  [stack] is [dc.stack] with the
    active dialog first; [outbox] lists the activities sent so far, oldest
    first; [activeDialogProperty] is the separate "active dialog" property
    that only the early dispatcher reads. *)
Record World : Type := mkWorld {
  stack : list DialogInstance;
  responded : bool;
  outbox : list Activity;
  activity_text : JSValue;
  userProfile : option UserProfile;
  activeDialogProperty : option string
}.

Definition set_stack (s : list DialogInstance) (w : World) : World :=
  mkWorld s (responded w) (outbox w) (activity_text w) (userProfile w)
          (activeDialogProperty w).

Definition set_activity_text (t : JSValue) (w : World) : World :=
  mkWorld (stack w) (responded w) (outbox w) t (userProfile w)
          (activeDialogProperty w).

Definition set_userProfile (p : UserProfile) (w : World) : World :=
  mkWorld (stack w) (responded w) (outbox w) (activity_text w) (Some p)
          (activeDialogProperty w).

(** The world after [activity] went out: it is appended to the outbox and
    the turn counts as responded. *)
Definition sent (activity : Activity) (w : World) : World :=
  mkWorld (stack w) true (outbox w ++ [activity]) (activity_text w)
          (userProfile w) (activeDialogProperty w).

(** [dc.activeDialog.id], or [None] for [undefined]. *)
Definition activeDialog (w : World) : option string :=
  match stack w with
  | [] => None
  | top :: _ => Some (inst_id top)
  end.

(** [a === s] and [a !== s] for a possibly undefined dialog id [a]. *)
Definition idEq (a : option string) (s : string) : bool :=
  match a with
  | Some t => t =? s
  | None => false
  end.

Definition idNeq (a : option string) (s : string) : bool := negb (idEq a s).

(** ** The monad of a turn *)

Inductive Res (A : Type) : Type :=
| Ok (a : A) (w : World)
| Throw (e : Exn) (w : World)
| OutOfFuel.

Arguments Ok {A} a w.
Arguments Throw {A} e w.
Arguments OutOfFuel {A}.

Definition M (A : Type) : Type := World -> Res A.

Definition ret {A} (a : A) : M A := fun w => Ok a w.

Definition bind {A B} (c : M A) (k : A -> M B) : M B :=
  fun w =>
    match c w with
    | Ok a w' => k a w'
    | Throw e w' => Throw e w'
    | OutOfFuel => OutOfFuel
    end.

Definition throw {A} (e : Exn) : M A := fun w => Throw e w.

Definition lift {A} (r : Exn + A) : M A :=
  match r with
  | inl e => throw e
  | inr a => ret a
  end.

Definition gets {A} (f : World -> A) : M A := fun w => Ok (f w) w.

Definition modify (f : World -> World) : M unit := fun w => Ok tt (f w).

Declare Scope turn_scope.
Delimit Scope turn_scope with turn.
Bind Scope turn_scope with M.

Notation "x <- c1 ;; c2" := (bind c1 (fun x => c2))
  (at level 61, c1 at next level, right associativity) : turn_scope.
Notation "c1 ;; c2" := (bind c1 (fun _ => c2))
  (at level 61, right associativity) : turn_scope.

Open Scope turn_scope.

(** ** What lies outside the two source files *)

(** The [Name] constants of the dialog classes. *)
Record DialogNames : Type := mkNames {
  QnADialog_Name : string;
  ChitChatDialog_Name : string;
  HelpDialog_Name : string;
  CancelDialog_Name : string;
  WhoAreYouDialog_Name : string;
  FindCafeLocationsDialog_Name : string;
  WhatCanYouDoDialog_Name : string;
  BookTableDialog_Name : string
}.

(** The collaborators of the dispatcher.  A child dialog is a black box
    that turns a world into a turn result and a new world; [JSON_parse]
    answers [None] where [JSON.parse] throws; [resourceResponse] is what
    the channel adapter returns for a sent activity ([None] for
    [undefined]); [qnaOnTurn] is the QnA dialog the early dispatcher calls
    directly. *)
Record Env : Type := mkEnv {
  names : DialogNames;
  dialogBegin : string -> JSValue -> World -> DialogTurnResult * World;
  dialogContinue : string -> World -> DialogTurnResult * World;
  dialogResume : string -> JSValue -> World -> DialogTurnResult * World;
  JSON_parse : JSValue -> option JSValue;
  GenSuggestedQueries : list string;
  resourceResponse : World -> Activity -> option string;
  qnaOnTurn : World -> Returned * World
}.

(** [new TurnResultHelper(DialogTurnStatus.empty)] and
    [new DialogTurnResult(DialogTurnStatus.empty)]. *)
Definition emptyTurnResult : DialogTurnResult := mkTurnResult empty JUndefined.

(** [(dialogTurnResult === undefined) ? new TurnResultHelper(empty)
     : dialogTurnResult], the last statement of both dispatchers. *)
Definition orEmpty (dialogTurnResult : Returned) : Returned :=
  match dialogTurnResult with
  | RUndefined => RTurn emptyTurnResult
  | _ => dialogTurnResult
  end.

Section Framework.

Context (E : Env).

(** [dc.context.sendActivity(activity)]. *)
Definition sendActivity (activity : Activity) : M Returned :=
  fun w =>
    Ok (match resourceResponse E w activity with
        | Some i => RResource i
        | None => RUndefined
        end)
       (sent activity w).

(** Modelled from the spec: [DialogContext.begin] of botbuilder-dialogs is
    not part of the sources.  Starting a sub-conversation makes it the
    active one before it runs (section 4.2, step 4): a fresh frame is
    pushed, then the dialog's own begin step runs. *)
Definition dc_begin (dialogId : string) (options : JSValue) : M Returned :=
  fun w =>
    let (r, w') :=
      dialogBegin E dialogId options
        (set_stack (mkInstance dialogId (JObj []) :: stack w) w) in
    Ok (RTurn r) w'.

(** Modelled from the spec: [DialogContext.continue] is not part of the
    sources.  The active sub-conversation is resumed (section 4.2,
    step 3); the result is [empty] exactly when the stack has no active
    dialog (comment at the call in [mainDispatch]). *)
Definition dc_continue : M DialogTurnResult :=
  fun w =>
    match stack w with
    | [] => Ok emptyTurnResult w
    | top :: _ =>
        let (r, w') := dialogContinue E (inst_id top) w in Ok r w'
    end.

(** Modelled from the spec: [DialogContext.end] is not part of the
    sources.  It removes the top frame only (section 4.3 contrasts it with
    cancel-all); the dialog below, if any, is resumed, otherwise the
    outcome is [complete] (section 4.2, step 2, on what a denied turn
    returns). *)
Definition dc_end : M Returned :=
  fun w =>
    let rest := tl (stack w) in
    match rest with
    | [] => Ok (RTurn (mkTurnResult complete JUndefined)) (set_stack [] w)
    | parent :: _ =>
        let (r, w') :=
          dialogResume E (inst_id parent) JUndefined (set_stack rest w) in
        Ok (RTurn r) w'
    end.

(** Modelled from the spec: [DialogContext.cancelAll] is not part of the
    sources.  It clears the full sub-conversation stack (section 4.3). *)
Definition dc_cancelAll : M unit := modify (set_stack []).

End Framework.

(** A permission outcome [{ allowed, reason }]. *)
Record PermissionOutcome : Type := mkOutcome {
  allowed : bool;
  reason : string
}.

(** ** The dispatcher with [mainDispatch]

    The [MainDialog] class in
    [dialogs/shared/stateProperties/onTurnProperty.js]. *)
Module V2.

Definition USER_NAME_ENTITY : string := "userName_patternAny".
Definition NONE_INTENT : string := "None".
Definition QUERY_PROPERTY : string := "query".

(** The closing prompt of [mainDispatch]. *)
Definition closingPrompt (E : Env) : Activity :=
  SuggestedActions (GenSuggestedQueries E)
                   "Is there anything else I can help you with?".

Definition greetAgain (name : string) : Activity :=
  Text ("Hello " ++ name ++ ", Nice to meet you again! I'm the Contoso Cafe Bot.").

Definition chooseAQuery : Activity :=
  Text "Try and choose a query from the card before you click the 'Let's talk!' button.".

Section Dispatcher.

Context (E : Env).

Local Abbreviation N := (names E).

(** [isRequestedOperationPossible(dc, requestedOperation)]: it only
    reads [dc.activeDialog]. *)
Definition isRequestedOperationPossible
           (w : World) (requestedOperation : JSValue) : PermissionOutcome :=
  let activeDialog := activeDialog w in
  let outcome := mkOutcome true "" in
  if strictEqStr requestedOperation (WhatCanYouDoDialog_Name N) then
    if idEq activeDialog (WhoAreYouDialog_Name N) then
      mkOutcome false
        "Sorry! I'm unable to process that. You can say 'cancel' to cancel this conversation.."
    else outcome
  else if strictEqStr requestedOperation (CancelDialog_Name N) then
    match activeDialog with
    | None => mkOutcome false "Sure, but there is nothing to cancel.."
    | Some _ => outcome
    end
  else outcome.

(** [beginWhoAreYouDialog(dc, onTurnProperty)]. *)
Definition beginWhoAreYouDialog (onTurnProperty : JSValue) : M Returned :=
  userProfile <- gets userProfile ;;
  userNameInOnTurnProperty <-
    lift (entitiesNamed USER_NAME_ENTITY onTurnProperty) ;;
  match userNameInOnTurnProperty with
  | first :: _ =>
      entityValue <- lift (getProp first "entityValue") ;;
      userName <- lift (index0 entityValue) ;;
      match userName with
      | JStr s =>
          let userName := capitalize s in
          modify (set_userProfile (mkUserProfile userName)) ;;
          sendActivity E (greetAgain userName)
      | _ => throw (TypeError "userName.charAt is not a function")
      end
  | [] =>
      let askTheirName :=
        sendActivity E (Text "Hello, I'm the Contoso Cafe Bot.") ;;
        dc_begin E (WhoAreYouDialog_Name N) JUndefined in
      match userProfile with
      | None => askTheirName
      | Some p =>
          if (userName p =? "") || (userName p =? "Human")
          then askTheirName
          else sendActivity E (greetAgain (userName p))
      end
  end.

(** [beginWhatCanYouDoDialog(dc, onTurnProperty)]; [again] stands for
    the recursive call [this.beginChildDialog(dc, parsedJSON)]. *)
Definition beginWhatCanYouDoDialog
           (again : JSValue -> M Returned) (onTurnProperty : JSValue)
  : M Returned :=
  queryProperty <- lift (entitiesNamed QUERY_PROPERTY onTurnProperty) ;;
  match queryProperty with
  | first :: _ =>
      entityValue <- lift (getProp first "entityValue") ;;
      match JSON_parse E entityValue with
      | None => sendActivity E chooseAQuery
      | Some parsedJSON =>
          text <- lift (getProp parsedJSON "text") ;;
          match text with
          | JUndefined => ret RUndefined
          | _ =>
              modify (set_activity_text text) ;;
              shown <- gets activity_text ;;
              sendActivity E (Text ("You said: '" ++ toStr shown ++ "'"))
          end ;;
          again parsedJSON
      end
  | [] => dc_begin E (WhatCanYouDoDialog_Name N) JUndefined
  end.

(** [beginChildDialog(dc, onTurnProperty, childDialogPayload)].  The
    [switch] compares [onTurnProperty.intent] with the case labels in
    order.  One unit of [fuel] is spent per call; only the "what can
    you do" card makes the method call itself. *)
Fixpoint beginChildDialog (fuel : nat)
         (onTurnProperty childDialogPayload : JSValue) : M Returned :=
  match fuel with
  | O => fun _ => OutOfFuel
  | S fuel' =>
      intent <- lift (getProp onTurnProperty "intent") ;;
      if strictEqStr intent (QnADialog_Name N)
         || strictEqStr intent (ChitChatDialog_Name N)
         || strictEqStr intent (HelpDialog_Name N)
      then dc_begin E (QnADialog_Name N) JUndefined
      else if strictEqStr intent (CancelDialog_Name N)
      then dc_begin E (CancelDialog_Name N) childDialogPayload
      else if strictEqStr intent (WhoAreYouDialog_Name N)
      then beginWhoAreYouDialog onTurnProperty
      else if strictEqStr intent (FindCafeLocationsDialog_Name N)
      then dc_begin E (FindCafeLocationsDialog_Name N) JUndefined
      else if strictEqStr intent (WhatCanYouDoDialog_Name N)
      then beginWhatCanYouDoDialog
             (fun parsedJSON => beginChildDialog fuel' parsedJSON JUndefined)
             onTurnProperty
      else if strictEqStr intent NONE_INTENT
      then
        sendActivity E
          (Text "I'm still learning.. Sorry, I do not know how to help you with that.") ;;
        text <- gets activity_text ;;
        sendActivity E
          (Text ("Follow [this link](https://www.bing.com/search?q="
                 ++ toStr text ++ ") to search the web!"))
      else ret RUndefined
  end.

(** The first half of [mainDispatch] after the permission check:
    continue the outstanding dialog and, if no one has responded,
    begin the right child dialog. *)
Definition continueOrBegin (fuel : nat) (onTurnProperty : JSValue)
  : M Returned :=
  dialogTurnResult <- dc_continue E ;;
  responded <- gets responded ;;
  if negb responded
  then beginChildDialog fuel onTurnProperty JUndefined
  else ret (RTurn dialogTurnResult).

(** The second half of [mainDispatch]: the examination of the result
    of [dc.continue()] or [beginChildDialog()], down to the final
    [return]. *)
Definition reconcile (fuel : nat) (onTurnProperty : JSValue)
           (dialogTurnResult : Returned) : M Returned :=
  match dialogTurnResult with
  | RUndefined => dc_end E
  | RResource _ => ret dialogTurnResult
  | RTurn r =>
      match status r with
      | complete =>
          if truthy (result r) then
            reason <- lift (getProp (result r) "reason") ;;
            if strictEqStr reason "Interruption" then
              payload <- lift (getProp (result r) "payload") ;;
              again <- beginChildDialog fuel onTurnProperty payload ;;
              ret (orEmpty again)
            else if strictEqStr reason "Abandon" then
              payload <- lift (getProp (result r) "payload") ;;
              old <- lift (getProp payload "onTurnProperty") ;;
              again <- beginChildDialog fuel old JUndefined ;;
              ret (orEmpty again)
            else ret dialogTurnResult
          else
            sendActivity E (closingPrompt E) ;;
            ret dialogTurnResult
      | waiting => ret dialogTurnResult
      | cancelled =>
          sendActivity E (closingPrompt E) ;;
          dc_cancelAll ;;
          ret dialogTurnResult
      | empty => ret dialogTurnResult
      end
  end.

(** [mainDispatch(dc)], with the turn property read from its accessor
    passed in. *)
Definition mainDispatch (fuel : nat) (onTurnProperty : JSValue)
  : M Returned :=
  intent <- lift (getProp onTurnProperty "intent") ;;
  reqOpStatus <- gets (fun w => isRequestedOperationPossible w intent) ;;
  if negb (allowed reqOpStatus) then
    sendActivity E (Text (reason reqOpStatus)) ;;
    dc_end E
  else
    dialogTurnResult <- continueOrBegin fuel onTurnProperty ;;
    reconcile fuel onTurnProperty dialogTurnResult.

(** [onDialogBegin] and [onDialogContinue] both run [mainDispatch]. *)
Definition onDialogBegin := mainDispatch.
Definition onDialogContinue := mainDispatch.

End Dispatcher.

End V2.

(** ** The early dispatcher

    [dialogs/mainDialog/index.js]. *)
Module V1.

Section Dispatcher.

Context (E : Env).

Local Abbreviation N := (names E).

(** [isRequestedOperationPossible(dc, requestedOperation)]: the active
    dialog is read from its own property accessor. *)
Definition isRequestedOperationPossible
           (w : World) (requestedOperation : JSValue) : PermissionOutcome :=
  let outcome := mkOutcome true "" in
  let activeDialog := activeDialogProperty w in
  if strictEqStr requestedOperation "Book_Table_Submit"
     || strictEqStr requestedOperation "Book_Table_Cancel"
  then
    if idNeq activeDialog (BookTableDialog_Name N) then
      mkOutcome false
        "Sorry! I'm unable to process that. To start a new table reservation, try 'Book a table'"
    else outcome
  else if strictEqStr requestedOperation (CancelDialog_Name N) then
    if idNeq activeDialog (BookTableDialog_Name N)
       || idNeq activeDialog (WhoAreYouDialog_Name N)
    then mkOutcome false "Nothing to cancel."
    else outcome
  else outcome.

(** [beginChildDialog(dc, onTurnProperty)]. *)
Definition beginChildDialog (onTurnProperty : JSValue) : M Returned :=
  intent <- lift (getProp onTurnProperty "intent") ;;
  if strictEqStr intent (QnADialog_Name N)
     || strictEqStr intent (ChitChatDialog_Name N)
     || strictEqStr intent (HelpDialog_Name N)
  then fun w => let (r, w') := qnaOnTurn E w in Ok r w'
  else if strictEqStr intent (CancelDialog_Name N)
  then sendActivity E (Text "Cancel")
  else if strictEqStr intent (BookTableDialog_Name N)
  then sendActivity E (Text "Book Table")
  else if strictEqStr intent (WhoAreYouDialog_Name N)
  then sendActivity E (Text "Who are You!")
  else if strictEqStr intent (FindCafeLocationsDialog_Name N)
  then sendActivity E (Text "Find Cafe Locations!")
  else ret RUndefined.

(** The [switch] of [onDialogContinue] on the status of the result of
    [dc.continue()].  [dc.EndAsync] is not a method of the dialog
    context, so calling it throws. *)
Definition statusSwitch (onTurnProperty : JSValue)
           (dialogTurnResult : DialogTurnResult) : M Returned :=
  match status dialogTurnResult with
  | empty => beginChildDialog onTurnProperty
  | complete =>
      sendActivity E (Text "What else can I help you with?") ;;
      throw (TypeError "dc.EndAsync is not a function")
  | waiting => ret (RTurn dialogTurnResult)
  | cancelled =>
      sendActivity E (Text "What else can I help you with?") ;;
      dc_cancelAll ;;
      ret (RTurn dialogTurnResult)
  end.

(** [onDialogContinue(dc)], with the turn property read from its
    accessor passed in. *)
Definition onDialogContinue (onTurnProperty : JSValue) : M Returned :=
  let dialogTurnResult := emptyTurnResult in
  intent <- lift (getProp onTurnProperty "intent") ;;
  reqOpStatus <- gets (fun w => isRequestedOperationPossible w intent) ;;
  if negb (allowed reqOpStatus) then
    sendActivity E (Text (reason reqOpStatus)) ;;
    ret (RTurn dialogTurnResult)
  else
    dialogTurnResult <- dc_continue E ;;
    if negb (status_eqb (status dialogTurnResult) empty)
    then ret (RTurn dialogTurnResult)
    else
      dialogTurnResult <- statusSwitch onTurnProperty dialogTurnResult ;;
      ret (orEmpty dialogTurnResult).

(** [onDialogBegin(dc, options)]. *)
Definition onDialogBegin := onDialogContinue.

End Dispatcher.

End V1.

(** ** Turn properties *)

(** [new OnTurnProperty(intent, entities)]. *)
Definition OnTurnProperty (intent entities : JSValue) : JSValue :=
  JObj [("intent", if truthy intent then intent else JStr "");
        ("entities", if truthy entities then entities else JArr [])].

(** Modelled from the spec: the [entityProperty] class is not part of the
    sources.  An entity is a name with a value (section 3); the dispatcher
    reads the two as [entityName] and [entityValue]. *)
Definition entityProperty (name : string) (value : JSValue) : JSValue :=
  JObj [("entityName", JStr name); ("entityValue", value)].

Definition hasKey (k : string) (fields : list (string * JSValue)) : bool :=
  existsb (fun kv => fst kv =? k) fields.

(** [OnTurnProperty.fromLUISResults(LUISResults)], given the top intent
    that [LuisRecognizer.topIntent] finds, the constant list
    [LUIS_ENTITIES] and the fields of [LUISResults.entities]. *)
Definition fromLUISResults (topIntent : string) (LUIS_ENTITIES : list string)
           (entities : list (string * JSValue)) : JSValue :=
  JObj [("intent", JStr topIntent);
        ("entities",
         JArr (flat_map
                 (fun luisEntity =>
                    if hasKey luisEntity entities
                    then [entityProperty luisEntity (lookup luisEntity entities)]
                    else [])
                 LUIS_ENTITIES))].

(** ** A concrete environment

    Used to run the dispatchers on concrete turns. *)

Definition cafeNames : DialogNames :=
  mkNames "QnA" "ChitChat" "Help" "Cancel" "WhoAreYou" "FindCafeLocations"
          "WhatCanYouDo" "BookTable".

(** A scripted child dialog: resumed, it optionally says something,
    optionally leaves the stack, and reports [r]; begun, it announces
    itself and waits.  The stand-in for [JSON.parse] accepts the empty
    object literal only, and the adapter answers every send with the
    resource id [1]. *)
Definition scriptedContinue (says : option string) (leaves : bool)
           (r : DialogTurnResult) (w : World) : DialogTurnResult * World :=
  let w1 := match says with
            | Some s => sent (Text s) w
            | None => w
            end in
  (r, if leaves then set_stack (tl (stack w1)) w1 else w1).

Definition cafeEnv (says : option string) (leaves : bool)
           (r : DialogTurnResult) : Env :=
  mkEnv cafeNames
        (fun dialogId _ w =>
           (mkTurnResult waiting JUndefined,
            sent (Text ("begin " ++ dialogId)) w))
        (fun _ w => scriptedContinue says leaves r w)
        (fun _ _ w => (mkTurnResult waiting JUndefined, w))
        (fun v => match v with
                  | JStr "{}" => Some (JObj [])
                  | _ => None
                  end)
        ["What can you do?"]
        (fun _ _ => Some "1")
        (fun w => (RUndefined, sent (Text "QnA answer") w)).

(** A world at the start of a turn, with the given stack. *)
Definition turnStart (frames : list string) (active : option string) : World :=
  mkWorld (map (fun i => mkInstance i (JObj [])) frames) false [] (JStr "hi")
          None active.

(** The entities of a turn property built from name/value pairs. *)
Definition entitiesOf (pairs : list (string * JSValue)) : JSValue :=
  JArr (map (fun nv => entityProperty (fst nv) (snd nv)) pairs).

(** The first value recorded under [name], as [filter(...)[0].entityValue]
    finds it among well-formed entities. *)
Definition firstNamed (name : string) (pairs : list (string * JSValue))
  : option (string * JSValue) :=
  find (fun nv => fst nv =? name) pairs.

(** Modelled from the spec: the host that starts the next turn is not part
    of the sources.  Turns of one conversation run one after the other
    (section 5); the next turn brings a new incoming text and nobody has
    responded to it yet, while the stack and the profile persist. *)
Definition nextTurn (text : JSValue) (w : World) : World :=
  mkWorld (stack w) false (outbox w) text (userProfile w)
          (activeDialogProperty w).


(** A turn in which the "who are you" dialog, asked to cancel, ends itself
    with an interruption whose payload names another intent. *)
Definition interruptedPayload : JSValue :=
  OnTurnProperty (JStr "FindCafeLocations") (JArr []).

Definition interruptedResult : DialogTurnResult :=
  mkTurnResult complete
               (JObj [("reason", JStr "Interruption");
                      ("payload", interruptedPayload)]).

Definition interruptedEnv : Env :=
  cafeEnv (Some "Hold on.") true interruptedResult.

Definition cancelTurn : JSValue := OnTurnProperty (JStr "Cancel") (JArr []).

(** As [interruptedEnv], with a cancel dialog that, once begun, says so,
    cancels every dialog on the stack and reports [cancelled]. *)
Definition cancellingEnv : Env :=
  mkEnv cafeNames
        (fun dialogId _ w =>
           (mkTurnResult cancelled JUndefined,
            set_stack [] (sent (Text ("cancelled by " ++ dialogId)) w)))
        (dialogContinue interruptedEnv)
        (dialogResume interruptedEnv)
        (JSON_parse interruptedEnv)
        ["What can you do?"]
        (fun _ _ => Some "1")
        (qnaOnTurn interruptedEnv).

(** A turn in which the cancel dialog, begun on top of the "who are you"
    dialog, reports [cancelled]. *)
Definition cancelledEnv : Env :=
  cafeEnv (Some "Okay, cancelled.") false (mkTurnResult cancelled JUndefined).

Definition noneTurn : JSValue := OnTurnProperty (JStr "None") (JArr []).

Definition twoFrames : World :=
  turnStart ["Cancel"; "WhoAreYou"] (Some "WhoAreYou").

(** Two turns that the "who are you" dialog answers with its prompt. *)
Definition promptingEnv : Env :=
  cafeEnv (Some "What is your name?") false (mkTurnResult waiting JUndefined).

Definition whoTurn : JSValue := OnTurnProperty (JStr "WhoAreYou") (JArr []).

Definition asked (w : World) : World := sent (Text "What is your name?") w.

(** ** Turn properties from card input *)

(** [c.toLowerCase()] on one character, for the ASCII range. *)
Definition downcase (c : ascii) : ascii :=
  let n := nat_of_ascii c in
  if ((65 <=? n) && (n <=? 90))%nat then ascii_of_nat (n + 32) else c.

(** [key.toLowerCase()], for a key in ASCII text. *)
Fixpoint toLowerCase (s : string) : string :=
  match s with
  | EmptyString => EmptyString
  | String c rest => String (downcase c) (toLowerCase rest)
  end.

(** The ASCII white space and line terminators that [trim] removes: tab,
    line feed, vertical tab, form feed, carriage return and space. *)
Definition isWhiteSpace (c : ascii) : bool :=
  let n := nat_of_ascii c in
  (((9 <=? n) && (n <=? 13)) || (n =? 32))%nat.

Fixpoint trimStart (s : string) : string :=
  match s with
  | EmptyString => EmptyString
  | String c rest => if isWhiteSpace c then trimStart rest else s
  end.

Fixpoint trimEnd (s : string) : string :=
  match s with
  | EmptyString => EmptyString
  | String c rest =>
      match trimEnd rest with
      | EmptyString => if isWhiteSpace c then EmptyString else String c EmptyString
      | kept => String c kept
      end
  end.

(** [key.trim()], for a key in ASCII text. *)
Definition trim (s : string) : string := trimEnd (trimStart s).

(** [key.toLowerCase().trim() === 'intent'], for a key in ASCII text. *)
Definition isIntentKey (key : string) : bool :=
  trim (toLowerCase key) =? "intent".

(** One round of the [for...in] loop of [fromCardInput]: the key either
    sets the intent or adds an entity at the end of the list. *)
Definition cardStep (cardValue : list (string * JSValue))
           (acc : JSValue * list JSValue) (key : string)
  : JSValue * list JSValue :=
  if isIntentKey key
  then (lookup key cardValue, snd acc)
  else (fst acc, (snd acc ++ [entityProperty key (lookup key cardValue)])%list).

(** [OnTurnProperty.fromCardInput(cardValue)], for an object [cardValue]
    given by its own properties in the order [for...in] visits them.  An
    own property named [hasOwnProperty] hides the method the loop calls, so
    the first round throws. *)
Definition fromCardInput (cardValue : list (string * JSValue))
  : Exn + JSValue :=
  if hasKey "hasOwnProperty" cardValue
  then inl (TypeError "cardValue.hasOwnProperty is not a function")
  else
    let acc := fold_left (cardStep cardValue) (map fst cardValue)
                         (JStr "", []) in
    inr (JObj [("intent", fst acc); ("entities", JArr (snd acc))]).

(** The value under the last intent key of a card, [default] if there is
    none. *)
Fixpoint lastIntent (cardValue : list (string * JSValue)) (keys : list string)
         (default : JSValue) : JSValue :=
  match keys with
  | [] => default
  | key :: rest =>
      lastIntent cardValue rest
                 (if isIntentKey key then lookup key cardValue else default)
  end.

(** A turn in which the "who are you" dialog ends itself asking to be taken
    up again with the turn that started it. *)
Definition abandonedPayload : JSValue :=
  JObj [("onTurnProperty", OnTurnProperty (JStr "FindCafeLocations") (JArr []))].

Definition abandonedResult : DialogTurnResult :=
  mkTurnResult complete
               (JObj [("reason", JStr "Abandon"); ("payload", abandonedPayload)]).

Definition abandonedEnv : Env := cafeEnv (Some "Later.") true abandonedResult.

(** A child dialog that ends without a word to say it was left half-way,
    carrying no payload. *)
Definition brokenAbandonResult : DialogTurnResult :=
  mkTurnResult complete (JObj [("reason", JStr "Abandon")]).

Definition brokenAbandonEnv : Env :=
  cafeEnv (Some "Later.") true brokenAbandonResult.

(** The double quote, and two JSON texts a "what can you do" card may
    carry in its query field. *)
Definition dq : string := String (ascii_of_nat 34) EmptyString.

Definition jsonField (key value : string) : string :=
  dq ++ key ++ dq ++ ":" ++ dq ++ value ++ dq.

Definition findCard : string :=
  "{" ++ jsonField "text" "cafes near me" ++ ","
      ++ jsonField "intent" "FindCafeLocations" ++ "}".

Definition jokeCard : string :=
  "{" ++ jsonField "text" "tell me a joke" ++ ","
      ++ jsonField "intent" "None" ++ "}".

(** An environment whose [JSON.parse] knows one text: [card] parses to
    [parsed], everything else is rejected. *)
Definition parsingEnv (card : string) (parsed : JSValue) : Env :=
  mkEnv cafeNames
        (dialogBegin (cafeEnv None false emptyTurnResult))
        (dialogContinue (cafeEnv None false emptyTurnResult))
        (dialogResume (cafeEnv None false emptyTurnResult))
        (fun v => match v with
                  | JStr t => if t =? card then Some parsed else None
                  | _ => None
                  end)
        ["What can you do?"]
        (fun _ _ => Some "1")
        (qnaOnTurn (cafeEnv None false emptyTurnResult)).

(** * Properties *)

Lemma strictEqStr_refl (s : string) : strictEqStr (JStr s) s = true.
Proof. apply String.eqb_refl. Qed.

Lemma strictEqStr_neq (s t : string) : s <> t -> strictEqStr (JStr s) t = false.
Proof. intro H. now apply String.eqb_neq. Qed.

Lemma not_in_cons_neq (x y : string) (l : list string) :
  ~ In x (y :: l) -> strictEqStr (JStr x) y = false /\ ~ In x l.
Proof.
  intro H. split.
  - apply strictEqStr_neq. intros ->. apply H. now left.
  - intro Hin. apply H. now right.
Qed.

Lemma idNeq_None (s : string) : idNeq None s = true.
Proof. reflexivity. Qed.

(** The guard of the early dispatcher's cancel rule,
    [activeDialog !== BookTableDialog.Name || activeDialog !== WhoAreYouDialog.Name],
    holds for every active dialog as soon as the two names differ. *)
Lemma cancel_guard_always_true (a : option string) (book who : string) :
  book <> who -> idNeq a book || idNeq a who = true.
Proof.
  intro Hneq. destruct a as [t|]; [|reflexivity].
  unfold idNeq, idEq.
  destruct (String.eqb_spec t book) as [->|_]; [|reflexivity].
  destruct (String.eqb_spec book who) as [->|_]; [now elim Hneq|reflexivity].
Qed.

(** ** The permission evaluators *)

(** C3.  With no active sub-conversation, the cancel intent is denied
    with a "nothing to cancel" reason, by the evaluator of either
    dispatcher (the one reads [dc.activeDialog], the other its active-dialog
    property).  The cancel intent must not collide with the labels tested
    before it. *)
Theorem cancel_with_nothing_active_is_denied :
  forall (E : Env) (w2 w1 : World),
    CancelDialog_Name (names E) <> WhatCanYouDoDialog_Name (names E) ->
    CancelDialog_Name (names E) <> "Book_Table_Submit" ->
    CancelDialog_Name (names E) <> "Book_Table_Cancel" ->
    activeDialog w2 = None ->
    activeDialogProperty w1 = None ->
    V2.isRequestedOperationPossible E w2 (JStr (CancelDialog_Name (names E)))
    = mkOutcome false "Sure, but there is nothing to cancel.."
    /\ V1.isRequestedOperationPossible E w1 (JStr (CancelDialog_Name (names E)))
       = mkOutcome false "Nothing to cancel.".
Proof.
  intros E w2 w1 Hwhat Hsubmit Hcancel Hidle2 Hidle1. split.
  - unfold V2.isRequestedOperationPossible.
    rewrite (strictEqStr_neq _ _ Hwhat), strictEqStr_refl, Hidle2.
    reflexivity.
  - unfold V1.isRequestedOperationPossible.
    rewrite (strictEqStr_neq _ _ Hsubmit), (strictEqStr_neq _ _ Hcancel).
    rewrite strictEqStr_refl, Hidle1. reflexivity.
Qed.

Lemma cancel_with_nothing_active_is_denied_witness :
  activeDialog (turnStart [] None) = None
  /\ activeDialogProperty (turnStart [] None) = None
  /\ V2.isRequestedOperationPossible
       (cafeEnv None false emptyTurnResult) (turnStart [] None) (JStr "Cancel")
     = mkOutcome false "Sure, but there is nothing to cancel.."
  /\ V1.isRequestedOperationPossible
       (cafeEnv None false emptyTurnResult) (turnStart [] None) (JStr "Cancel")
     = mkOutcome false "Nothing to cancel.".
Proof.
  split; [reflexivity|]. split; [reflexivity|].
  apply (cancel_with_nothing_active_is_denied
           (cafeEnv None false emptyTurnResult)
           (turnStart [] None) (turnStart [] None));
    solve [discriminate | reflexivity].
Defined.

(** C4.  In the early dispatcher the guard of the cancel rule is a
    disjunction of two inequalities that is true for every active dialog,
    so the cancel intent is denied whatever is active, the booking and the
    "who are you" dialogs included. *)
Theorem early_cancel_is_always_denied :
  forall (E : Env) (w : World),
    BookTableDialog_Name (names E) <> WhoAreYouDialog_Name (names E) ->
    CancelDialog_Name (names E) <> "Book_Table_Submit" ->
    CancelDialog_Name (names E) <> "Book_Table_Cancel" ->
    (forall a : option string,
        idNeq a (BookTableDialog_Name (names E))
        || idNeq a (WhoAreYouDialog_Name (names E)) = true)
    /\ V1.isRequestedOperationPossible E w (JStr (CancelDialog_Name (names E)))
       = mkOutcome false "Nothing to cancel.".
Proof.
  intros E w Hflows Hsubmit Hcancel. split.
  - intro a. now apply cancel_guard_always_true.
  - unfold V1.isRequestedOperationPossible.
    rewrite (strictEqStr_neq _ _ Hsubmit), (strictEqStr_neq _ _ Hcancel).
    rewrite strictEqStr_refl, (cancel_guard_always_true _ _ _ Hflows).
    reflexivity.
Qed.

Lemma early_cancel_is_always_denied_witness :
  V1.isRequestedOperationPossible
    (cafeEnv None false emptyTurnResult)
    (turnStart ["BookTable"] (Some "BookTable")) (JStr "Cancel")
  = mkOutcome false "Nothing to cancel."
  /\ V1.isRequestedOperationPossible
       (cafeEnv None false emptyTurnResult)
       (turnStart ["WhoAreYou"] (Some "WhoAreYou")) (JStr "Cancel")
     = mkOutcome false "Nothing to cancel.".
Proof.
  split.
  - apply (early_cancel_is_always_denied
             (cafeEnv None false emptyTurnResult)
             (turnStart ["BookTable"] (Some "BookTable")));
      discriminate.
  - apply (early_cancel_is_always_denied
             (cafeEnv None false emptyTurnResult)
             (turnStart ["WhoAreYou"] (Some "WhoAreYou")));
      discriminate.
Defined.

(** C5, as the code has it.  The early dispatcher allows the booking
    card's submit intent while the booking dialog is the active one and
    denies it, with a hint at the entry phrase, when nothing is active.
    The later dispatcher has no rule for the booking card: it allows the
    same intent in every state. *)
Theorem book_table_submit_permission :
  forall (E : Env) (booking idle any : World),
    WhatCanYouDoDialog_Name (names E) <> "Book_Table_Submit" ->
    CancelDialog_Name (names E) <> "Book_Table_Submit" ->
    activeDialogProperty booking = Some (BookTableDialog_Name (names E)) ->
    activeDialogProperty idle = None ->
    V1.isRequestedOperationPossible E booking (JStr "Book_Table_Submit")
    = mkOutcome true ""
    /\ V1.isRequestedOperationPossible E idle (JStr "Book_Table_Submit")
       = mkOutcome false
           "Sorry! I'm unable to process that. To start a new table reservation, try 'Book a table'"
    /\ V2.isRequestedOperationPossible E any (JStr "Book_Table_Submit")
       = mkOutcome true "".
Proof.
  intros E booking idle any Hwhat Hcancel Hbooking Hidle. repeat split.
  - unfold V1.isRequestedOperationPossible. rewrite Hbooking. simpl.
    unfold idNeq, idEq. now rewrite String.eqb_refl.
  - unfold V1.isRequestedOperationPossible. now rewrite Hidle.
  - unfold V2.isRequestedOperationPossible, strictEqStr.
    rewrite (proj2 (String.eqb_neq _ _)) by congruence.
    rewrite (proj2 (String.eqb_neq _ _)) by congruence.
    reflexivity.
Qed.

Lemma book_table_submit_permission_witness :
  V1.isRequestedOperationPossible
    (cafeEnv None false emptyTurnResult)
    (turnStart ["BookTable"] (Some "BookTable")) (JStr "Book_Table_Submit")
  = mkOutcome true ""
  /\ V1.isRequestedOperationPossible
       (cafeEnv None false emptyTurnResult)
       (turnStart [] None) (JStr "Book_Table_Submit")
     = mkOutcome false
         "Sorry! I'm unable to process that. To start a new table reservation, try 'Book a table'"
  /\ V2.isRequestedOperationPossible
       (cafeEnv None false emptyTurnResult)
       (turnStart [] None) (JStr "Book_Table_Submit")
     = mkOutcome true "".
Proof.
  apply (book_table_submit_permission
           (cafeEnv None false emptyTurnResult)
           (turnStart ["BookTable"] (Some "BookTable"))
           (turnStart [] None) (turnStart [] None));
    solve [discriminate | reflexivity].
Defined.

(** C5 as worded fails on the later dispatcher: with no active
    sub-conversation its evaluator does not deny the booking card's submit
    intent. *)
Lemma book_table_submit_idle_not_denied :
  activeDialog (turnStart [] None) = None
  /\ V2.isRequestedOperationPossible
       (cafeEnv None false emptyTurnResult)
       (turnStart [] None) (JStr "Book_Table_Submit")
     = mkOutcome true ""
  /\ allowed (V2.isRequestedOperationPossible
                (cafeEnv None false emptyTurnResult)
                (turnStart [] None) (JStr "Book_Table_Submit")) <> false.
Proof. repeat split. discriminate. Qed.

(** ** The early dispatcher's turn *)

(** C10.  In the early dispatcher a result of [dc.continue()] whose
    status is not [empty] is returned as it is, in the world the resumed
    dialog left: nothing is sent and nothing is ended or cancelled.  With
    status [empty] the [switch] takes its first case.  The [complete],
    [waiting] and [cancelled] cases are therefore never run. *)
Theorem early_switch_runs_only_on_empty :
  forall (E : Env) (onTurnProperty intent : JSValue) (w w' : World)
         (r : DialogTurnResult),
    getProp onTurnProperty "intent" = inr intent ->
    allowed (V1.isRequestedOperationPossible E w intent) = true ->
    dc_continue E w = Ok r w' ->
    (status r <> empty ->
     V1.onDialogContinue E onTurnProperty w = Ok (RTurn r) w')
    /\ (status r = empty ->
        V1.onDialogContinue E onTurnProperty w
        = (began <- V1.beginChildDialog E onTurnProperty ;;
           ret (orEmpty began)) w').
Proof.
  intros E onTurnProperty intent w w' r Hintent Hallowed Hcontinue.
  unfold V1.onDialogContinue, bind, lift, gets, ret.
  rewrite Hintent, Hallowed. simpl. rewrite Hcontinue.
  split; intro Hstatus.
  - destruct (status r); try reflexivity. now elim Hstatus.
  - unfold V1.statusSwitch. rewrite Hstatus. reflexivity.
Qed.

Lemma early_switch_runs_only_on_empty_witness :
  V1.onDialogContinue
    (cafeEnv (Some "Which day?") false (mkTurnResult waiting JUndefined))
    (OnTurnProperty (JStr "Help") (JArr []))
    (turnStart ["Cancel"] (Some "Cancel"))
  = Ok (RTurn (mkTurnResult waiting JUndefined))
       (sent (Text "Which day?") (turnStart ["Cancel"] (Some "Cancel")))
  /\ V1.onDialogContinue
       (cafeEnv None false emptyTurnResult)
       (OnTurnProperty (JStr "Help") (JArr []))
       (turnStart [] None)
     = Ok (RTurn emptyTurnResult)
          (sent (Text "QnA answer") (turnStart [] None)).
Proof.
  split.
  - apply (proj1 (early_switch_runs_only_on_empty
                    (cafeEnv (Some "Which day?") false
                             (mkTurnResult waiting JUndefined))
                    (OnTurnProperty (JStr "Help") (JArr [])) (JStr "Help")
                    (turnStart ["Cancel"] (Some "Cancel"))
                    (sent (Text "Which day?")
                          (turnStart ["Cancel"] (Some "Cancel")))
                    (mkTurnResult waiting JUndefined)
                    eq_refl eq_refl eq_refl)).
    discriminate.
  - rewrite (proj2 (early_switch_runs_only_on_empty
                      (cafeEnv None false emptyTurnResult)
                      (OnTurnProperty (JStr "Help") (JArr [])) (JStr "Help")
                      (turnStart [] None) (turnStart [] None)
                      emptyTurnResult eq_refl eq_refl eq_refl) eq_refl).
    reflexivity.
Defined.

(** ** Denied turns *)

(** C6, as the code has it.  When the evaluator denies the intent, both
    dispatchers send the reason and go on to neither [dc.continue()] nor
    [beginChildDialog()].  The early dispatcher then returns an [empty]
    result and leaves the stack, the active-dialog property and the user
    profile as they were.  The later one returns what [dc.end()] returns,
    in the world [dc.end()] leaves: the frame of the active dialog, if
    any, is taken off; with a frame below, that dialog is resumed and its
    result returned; with none below, the result is [complete] and the
    stack is empty, so that a turn that starts with nothing active ends
    with the stack as it was. *)
Theorem denied_turn_sends_reason :
  forall (E : Env) (fuel : nat) (onTurnProperty intent : JSValue) (w : World),
    getProp onTurnProperty "intent" = inr intent ->
    (allowed (V1.isRequestedOperationPossible E w intent) = false ->
     V1.onDialogContinue E onTurnProperty w
     = Ok (RTurn emptyTurnResult)
          (sent (Text (reason (V1.isRequestedOperationPossible E w intent))) w)
     /\ exists w',
         V1.onDialogContinue E onTurnProperty w = Ok (RTurn emptyTurnResult) w'
         /\ outbox w'
            = (outbox w
               ++ [Text (reason (V1.isRequestedOperationPossible E w intent))])%list
         /\ stack w' = stack w
         /\ activeDialogProperty w' = activeDialogProperty w
         /\ userProfile w' = userProfile w)
    /\ (allowed (V2.isRequestedOperationPossible E w intent) = false ->
        V2.mainDispatch E fuel onTurnProperty w
        = dc_end E
            (sent (Text (reason (V2.isRequestedOperationPossible E w intent))) w)
        /\ (tl (stack w) = [] ->
            V2.mainDispatch E fuel onTurnProperty w
            = Ok (RTurn (mkTurnResult complete JUndefined))
                 (set_stack []
                    (sent (Text (reason
                                   (V2.isRequestedOperationPossible E w intent)))
                          w)))
        /\ (forall (top parent : DialogInstance) (rest : list DialogInstance),
               stack w = top :: parent :: rest ->
               V2.mainDispatch E fuel onTurnProperty w
               = (let (r, w') :=
                    dialogResume E (inst_id parent) JUndefined
                      (set_stack (parent :: rest)
                         (sent (Text (reason
                                        (V2.isRequestedOperationPossible
                                           E w intent)))
                               w)) in
                  Ok (RTurn r) w'))
        /\ (stack w = [] ->
            exists w',
              V2.mainDispatch E fuel onTurnProperty w
              = Ok (RTurn (mkTurnResult complete JUndefined)) w'
              /\ outbox w'
                 = (outbox w
                    ++ [Text (reason
                                (V2.isRequestedOperationPossible E w intent))])%list
              /\ stack w' = stack w
              /\ activeDialogProperty w' = activeDialogProperty w
              /\ userProfile w' = userProfile w)).
Proof.
  intros E fuel onTurnProperty intent w Hintent. split; intro Hdenied.
  - assert (Hrun :
              V1.onDialogContinue E onTurnProperty w
              = Ok (RTurn emptyTurnResult)
                   (sent (Text (reason
                                  (V1.isRequestedOperationPossible E w intent)))
                         w)).
    { unfold V1.onDialogContinue, bind, lift, gets, ret.
      rewrite Hintent, Hdenied. reflexivity. }
    split; [exact Hrun|].
    eexists. split; [exact Hrun|]. now repeat split.
  - assert (Hrun :
              V2.mainDispatch E fuel onTurnProperty w
              = dc_end E
                  (sent (Text (reason (V2.isRequestedOperationPossible E w intent)))
                        w)).
    { unfold V2.mainDispatch, bind, lift, gets, ret.
      rewrite Hintent, Hdenied. reflexivity. }
    split; [exact Hrun|]. split; [|split].
    + intro Hlast. rewrite Hrun. unfold dc_end. cbn [stack sent].
      now rewrite Hlast.
    + intros top parent rest Hframes. rewrite Hrun. unfold dc_end.
      cbn [stack sent]. rewrite Hframes. reflexivity.
    + intro Hidle. eexists. split.
      * rewrite Hrun. unfold dc_end. simpl. rewrite Hidle. reflexivity.
      * simpl. now rewrite Hidle.
Qed.

Lemma denied_turn_sends_reason_witness :
  V1.onDialogContinue
    (cafeEnv None false emptyTurnResult)
    (OnTurnProperty (JStr "Cancel") (JArr [])) (turnStart [] None)
  = Ok (RTurn emptyTurnResult)
       (sent (Text "Nothing to cancel.") (turnStart [] None))
  /\ V2.mainDispatch
       (cafeEnv None false emptyTurnResult) 1
       (OnTurnProperty (JStr "Cancel") (JArr [])) (turnStart [] None)
     = Ok (RTurn (mkTurnResult complete JUndefined))
          (sent (Text "Sure, but there is nothing to cancel..")
                (turnStart [] None)).
Proof.
  pose proof (denied_turn_sends_reason
                (cafeEnv None false emptyTurnResult) 1
                (OnTurnProperty (JStr "Cancel") (JArr [])) (JStr "Cancel")
                (turnStart [] None) eq_refl) as [Hearly Hlater].
  destruct (Hearly eq_refl) as [Hrun1 _].
  destruct (Hlater eq_refl) as [Hrun2 _].
  split; [exact Hrun1 | exact Hrun2].
Defined.

(** C6 as worded fails on the later dispatcher.  A denied cancel with
    nothing active ends with a [complete] result, not an [empty] one; a
    denied "what can you do" during the "who are you" dialog takes that
    dialog off the stack. *)
Lemma denied_turn_not_empty_nor_untouched :
  (allowed (V2.isRequestedOperationPossible
              (cafeEnv None false emptyTurnResult)
              (turnStart [] None) (JStr "Cancel")) = false
   /\ V2.mainDispatch
        (cafeEnv None false emptyTurnResult) 1
        (OnTurnProperty (JStr "Cancel") (JArr [])) (turnStart [] None)
      = Ok (RTurn (mkTurnResult complete JUndefined))
           (sent (Text "Sure, but there is nothing to cancel..")
                 (turnStart [] None))
   /\ complete <> empty)
  /\ (allowed (V2.isRequestedOperationPossible
                 (cafeEnv None false emptyTurnResult)
                 (turnStart ["WhoAreYou"] None) (JStr "WhatCanYouDo")) = false
      /\ activeDialog (turnStart ["WhoAreYou"] None) = Some "WhoAreYou"
      /\ exists r w',
          V2.mainDispatch
            (cafeEnv None false emptyTurnResult) 1
            (OnTurnProperty (JStr "WhatCanYouDo") (JArr []))
            (turnStart ["WhoAreYou"] None)
          = Ok r w'
          /\ activeDialog w' = None
          /\ stack w' <> stack (turnStart ["WhoAreYou"] None)).
Proof.
  split.
  - repeat split. discriminate.
  - split; [reflexivity|]. split; [reflexivity|].
    eexists. eexists. split; [reflexivity|]. split; [reflexivity|].
    discriminate.
Qed.

(** ** Reconciling the outcome of a turn *)

(** X6.  In the later dispatcher a [cancelled] outcome of [dc.continue()]
    or of [beginChildDialog()] is followed by the closing prompt and by
    [dc.cancelAll()]: the turn ends with an empty stack. *)
Lemma later_cancelled_outcome_clears_stack :
  forall (E : Env) (fuel : nat) (onTurnProperty intent : JSValue)
         (w w1 : World) (r : DialogTurnResult),
    getProp onTurnProperty "intent" = inr intent ->
    allowed (V2.isRequestedOperationPossible E w intent) = true ->
    V2.continueOrBegin E fuel onTurnProperty w = Ok (RTurn r) w1 ->
    status r = cancelled ->
    V2.mainDispatch E fuel onTurnProperty w
    = Ok (RTurn r) (set_stack [] (sent (V2.closingPrompt E) w1)).
Proof.
  intros E fuel onTurnProperty intent w w1 r Hintent Hallowed Hfirst Hstatus.
  unfold V2.mainDispatch, bind, lift, gets, ret.
  rewrite Hintent, Hallowed. simpl. rewrite Hfirst.
  unfold V2.reconcile. rewrite Hstatus. reflexivity.
Qed.

(** C2, as the code has it.  When the outcome that [mainDispatch]
    examines (the result of [dc.continue()], or of [beginChildDialog()]
    when no one had responded) is [cancelled], the dispatcher sends the
    closing prompt, clears the whole dialog stack and returns the outcome.
    An outcome that comes out of the re-dispatch after an [Interruption] or
    an [Abandon] is returned as it is, whatever its status.  The early
    dispatcher has no cancelled outcome to handle: on its empty stack
    [dc.continue()] is [empty] and the [switch] takes its first case. *)
Theorem examined_cancelled_outcome_clears_stack :
  forall (E : Env) (fuel : nat) (onTurnProperty intent : JSValue)
         (w w1 : World) (r : DialogTurnResult),
    getProp onTurnProperty "intent" = inr intent ->
    allowed (V2.isRequestedOperationPossible E w intent) = true ->
    V2.continueOrBegin E fuel onTurnProperty w = Ok (RTurn r) w1 ->
    (status r = cancelled ->
     exists w',
       V2.mainDispatch E fuel onTurnProperty w = Ok (RTurn r) w'
       /\ outbox w'
          = (outbox w1
             ++ [SuggestedActions (GenSuggestedQueries E)
                                  "Is there anything else I can help you with?"])%list
       /\ stack w' = []
       /\ userProfile w' = userProfile w1)
    /\ (forall (payload : JSValue) (again : DialogTurnResult) (w2 : World),
           status r = complete ->
           getProp (result r) "reason" = inr (JStr "Interruption") ->
           getProp (result r) "payload" = inr payload ->
           V2.beginChildDialog E fuel onTurnProperty payload w1
           = Ok (RTurn again) w2 ->
           V2.mainDispatch E fuel onTurnProperty w = Ok (RTurn again) w2)
    /\ (forall (payload carried : JSValue) (again : DialogTurnResult)
               (w2 : World),
           status r = complete ->
           getProp (result r) "reason" = inr (JStr "Abandon") ->
           getProp (result r) "payload" = inr payload ->
           getProp payload "onTurnProperty" = inr carried ->
           V2.beginChildDialog E fuel carried JUndefined w1
           = Ok (RTurn again) w2 ->
           V2.mainDispatch E fuel onTurnProperty w = Ok (RTurn again) w2)
    /\ (forall (early : JSValue) (earlyIntent : JSValue) (w0 : World),
           getProp early "intent" = inr earlyIntent ->
           allowed (V1.isRequestedOperationPossible E w0 earlyIntent) = true ->
           stack w0 = [] ->
           dc_continue E w0 = Ok emptyTurnResult w0
           /\ V1.onDialogContinue E early w0
              = (began <- V1.beginChildDialog E early ;;
                 ret (orEmpty began)) w0).
Proof.
  intros E fuel onTurnProperty intent w w1 r Hintent Hallowed Hfirst.
  assert (Hrun :
            V2.mainDispatch E fuel onTurnProperty w
            = V2.reconcile E fuel onTurnProperty (RTurn r) w1).
  { unfold V2.mainDispatch, bind, lift, gets, ret.
    rewrite Hintent, Hallowed. simpl. now rewrite Hfirst. }
  assert (Htruthy :
            forall s, getProp (result r) "reason" = inr (JStr s) ->
                      truthy (result r) = true).
  { intros s Hreason.
    destruct (result r); simpl in Hreason; try discriminate; reflexivity. }
  split; [|split; [|split]].
  - intro Hstatus. rewrite Hrun. unfold V2.reconcile. rewrite Hstatus.
    eexists. split; [reflexivity|]. now repeat split.
  - intros payload again w2 Hstatus Hreason Hpayload Hagain.
    rewrite Hrun. unfold V2.reconcile.
    rewrite Hstatus, (Htruthy _ Hreason). unfold bind, lift, ret.
    rewrite Hreason, Hpayload. cbn [strictEqStr String.eqb Ascii.eqb Bool.eqb].
    now rewrite Hagain.
  - intros payload carried again w2 Hstatus Hreason Hpayload Hcarried Hagain.
    rewrite Hrun. unfold V2.reconcile.
    rewrite Hstatus, (Htruthy _ Hreason). unfold bind, lift, ret.
    rewrite Hreason, Hpayload. cbn [strictEqStr String.eqb Ascii.eqb Bool.eqb].
    rewrite Hcarried. now rewrite Hagain.
  - intros early earlyIntent w0 Hearly Hok Hidle. split.
    + unfold dc_continue. now rewrite Hidle.
    + unfold V1.onDialogContinue, bind, lift, gets, ret.
      rewrite Hearly, Hok. simpl. unfold dc_continue. rewrite Hidle.
      reflexivity.
Qed.

Lemma examined_cancelled_outcome_clears_stack_witness :
  exists w',
    V2.mainDispatch cancelledEnv 1 noneTurn twoFrames
    = Ok (RTurn (mkTurnResult cancelled JUndefined)) w'
    /\ outbox w'
       = [Text "Okay, cancelled.";
          SuggestedActions ["What can you do?"]
                           "Is there anything else I can help you with?"]
    /\ stack w' = [].
Proof.
  destruct (proj1 (examined_cancelled_outcome_clears_stack
                     cancelledEnv 1 noneTurn (JStr "None") twoFrames
                     (sent (Text "Okay, cancelled.") twoFrames)
                     (mkTurnResult cancelled JUndefined)
                     eq_refl eq_refl eq_refl) eq_refl)
    as [w' [Hrun [Hout [Hstack _]]]].
  exists w'. split; [exact Hrun|]. split; assumption.
Defined.

(** C2 as worded fails.  The "who are you" dialog, asked to cancel, ends
    itself with an interruption; the cancel dialog begun in turn cancels
    everything and reports [cancelled].  That outcome is the result of the
    turn, yet no closing prompt is sent. *)
Lemma redispatched_cancelled_outcome_gets_no_prompt :
  exists w',
    V2.mainDispatch cancellingEnv 1 cancelTurn (turnStart ["WhoAreYou"] None)
    = Ok (RTurn (mkTurnResult cancelled JUndefined)) w'
    /\ outbox w' = [Text "Hold on."; Text "cancelled by Cancel"]
    /\ ~ In (SuggestedActions (GenSuggestedQueries cancellingEnv)
                              "Is there anything else I can help you with?")
            (outbox w').
Proof.
  eexists. split; [reflexivity|]. split; [reflexivity|].
  simpl. intuition discriminate.
Qed.

(** X9.  The child-dialog payload only reaches the cancel dialog: for any
    other intent [beginChildDialog] does the same with or without it. *)
Lemma payload_only_reaches_cancel :
  forall (E : Env) (fuel : nat) (onTurnProperty intent payload : JSValue)
         (w : World),
    getProp onTurnProperty "intent" = inr intent ->
    strictEqStr intent (CancelDialog_Name (names E)) = false ->
    V2.beginChildDialog E fuel onTurnProperty payload w
    = V2.beginChildDialog E fuel onTurnProperty JUndefined w.
Proof.
  intros E [|fuel] onTurnProperty intent payload w Hintent Hcancel;
    [reflexivity|].
  simpl. unfold bind, lift, ret. rewrite Hintent. simpl. rewrite Hcancel.
  reflexivity.
Qed.




(** ** Resuming a waiting dialog *)

(** When the resumed dialog has responded, [continueOrBegin] hands back
    its result and begins nothing. *)
Lemma continue_that_responded_begins_nothing :
  forall (E : Env) (fuel : nat) (onTurnProperty : JSValue) (w w1 : World)
         (r : DialogTurnResult),
    dc_continue E w = Ok r w1 ->
    responded w1 = true ->
    V2.continueOrBegin E fuel onTurnProperty w = Ok (RTurn r) w1.
Proof.
  intros E fuel onTurnProperty w w1 r Hcontinue Hresponded.
  unfold V2.continueOrBegin, bind, gets, ret.
  rewrite Hcontinue, Hresponded. reflexivity.
Qed.

(** X10.  A resumed dialog that stays silent is followed by
    [beginChildDialog], whatever status it reports, [waiting] included:
    the dialog for the turn's intent is begun on top of it. *)
Lemma silent_continue_is_followed_by_begin :
  forall (E : Env) (fuel : nat) (onTurnProperty : JSValue) (w w1 : World)
         (r : DialogTurnResult),
    dc_continue E w = Ok r w1 ->
    responded w1 = false ->
    V2.continueOrBegin E fuel onTurnProperty w
    = V2.beginChildDialog E fuel onTurnProperty JUndefined w1.
Proof.
  intros E fuel onTurnProperty w w1 r Hcontinue Hsilent.
  unfold V2.continueOrBegin, bind, gets, ret.
  rewrite Hcontinue, Hsilent. reflexivity.
Qed.

(** One turn that the active dialog consumes and answers with [waiting]:
    the dispatcher returns that result in the world the dialog left. *)
Lemma waiting_turn_is_passed_through :
  forall (E : Env) (fuel : nat) (onTurnProperty intent : JSValue)
         (w w1 : World) (r : DialogTurnResult),
    getProp onTurnProperty "intent" = inr intent ->
    allowed (V2.isRequestedOperationPossible E w intent) = true ->
    dc_continue E w = Ok r w1 ->
    responded w1 = true ->
    status r = waiting ->
    V2.mainDispatch E fuel onTurnProperty w = Ok (RTurn r) w1.
Proof.
  intros E fuel onTurnProperty intent w w1 r
         Hintent Hallowed Hcontinue Hresponded Hstatus.
  unfold V2.mainDispatch, bind, lift, gets, ret.
  rewrite Hintent, Hallowed. simpl.
  rewrite (continue_that_responded_begins_nothing
             E fuel onTurnProperty w w1 r Hcontinue Hresponded).
  unfold V2.reconcile. rewrite Hstatus. reflexivity.
Qed.

(** C9, as the code has it.  A turn that the active dialog consumes (it
    has responded) and answers with [waiting] ends in exactly the world
    that dialog left: the dispatcher touches neither the stack nor the
    active dialog and does not call [beginChildDialog], which shows in
    that no fuel is needed.  Two such turns in a row therefore begin no
    second instance. *)
Theorem waiting_turns_begin_no_second_instance :
  forall (E : Env) (fuel : nat)
         (turn1 intent1 turn2 intent2 text2 : JSValue)
         (w w1 w2 : World) (r1 r2 : DialogTurnResult),
    getProp turn1 "intent" = inr intent1 ->
    allowed (V2.isRequestedOperationPossible E w intent1) = true ->
    dc_continue E w = Ok r1 w1 ->
    responded w1 = true ->
    status r1 = waiting ->
    getProp turn2 "intent" = inr intent2 ->
    allowed (V2.isRequestedOperationPossible E (nextTurn text2 w1) intent2)
    = true ->
    dc_continue E (nextTurn text2 w1) = Ok r2 w2 ->
    responded w2 = true ->
    status r2 = waiting ->
    V2.mainDispatch E fuel turn1 w = Ok (RTurn r1) w1
    /\ V2.mainDispatch E 0 turn1 w = Ok (RTurn r1) w1
    /\ V2.mainDispatch E fuel turn2 (nextTurn text2 w1) = Ok (RTurn r2) w2
    /\ V2.mainDispatch E 0 turn2 (nextTurn text2 w1) = Ok (RTurn r2) w2.
Proof.
  intros E fuel turn1 intent1 turn2 intent2 text2 w w1 w2 r1 r2
         Hi1 Ha1 Hc1 Hr1 Hs1 Hi2 Ha2 Hc2 Hr2 Hs2.
  assert (H1 : forall f, V2.mainDispatch E f turn1 w = Ok (RTurn r1) w1)
    by (intro f; now apply (waiting_turn_is_passed_through E f turn1 intent1)).
  assert (H2 : forall f, V2.mainDispatch E f turn2 (nextTurn text2 w1)
                         = Ok (RTurn r2) w2)
    by (intro f; now apply (waiting_turn_is_passed_through E f turn2 intent2)).
  split; [apply H1|]. split; [apply H1|]. split; [apply H2|]. apply H2.
Qed.

Lemma waiting_turns_begin_no_second_instance_witness :
  V2.mainDispatch promptingEnv 0 whoTurn (turnStart ["WhoAreYou"] None)
  = Ok (RTurn (mkTurnResult waiting JUndefined))
       (asked (turnStart ["WhoAreYou"] None))
  /\ V2.mainDispatch promptingEnv 0 whoTurn
       (nextTurn (JStr "who?") (asked (turnStart ["WhoAreYou"] None)))
     = Ok (RTurn (mkTurnResult waiting JUndefined))
          (asked (nextTurn (JStr "who?") (asked (turnStart ["WhoAreYou"] None))))
  /\ map inst_id
         (stack (asked (nextTurn (JStr "who?")
                                 (asked (turnStart ["WhoAreYou"] None)))))
     = ["WhoAreYou"].
Proof.
  pose proof (waiting_turns_begin_no_second_instance
                promptingEnv 1 whoTurn (JStr "WhoAreYou")
                whoTurn (JStr "WhoAreYou") (JStr "who?")
                (turnStart ["WhoAreYou"] None)
                (asked (turnStart ["WhoAreYou"] None))
                (asked (nextTurn (JStr "who?")
                                 (asked (turnStart ["WhoAreYou"] None))))
                (mkTurnResult waiting JUndefined)
                (mkTurnResult waiting JUndefined)
                eq_refl eq_refl eq_refl eq_refl eq_refl
                eq_refl eq_refl eq_refl eq_refl eq_refl)
    as [_ [Hturn1 [_ Hturn2]]].
  split; [exact Hturn1|]. split; [exact Hturn2|]. reflexivity.
Defined.

(** C9 as worded fails.  The "who are you" dialog is resumed, stays
    active and reports [waiting], but says nothing.  The dispatcher then
    begins the dialog for the turn's intent: a second "who are you" frame
    is on the stack when the turn ends. *)
Lemma silent_waiting_dialog_is_begun_again :
  dc_continue (cafeEnv None false (mkTurnResult waiting JUndefined))
              (turnStart ["WhoAreYou"] None)
  = Ok (mkTurnResult waiting JUndefined) (turnStart ["WhoAreYou"] None)
  /\ exists w',
      V2.mainDispatch (cafeEnv None false (mkTurnResult waiting JUndefined)) 1
                      whoTurn (turnStart ["WhoAreYou"] None)
      = Ok (RTurn (mkTurnResult waiting JUndefined)) w'
      /\ map inst_id (stack w') = ["WhoAreYou"; "WhoAreYou"]
      /\ stack w' <> stack (turnStart ["WhoAreYou"] None).
Proof.
  split; [reflexivity|].
  eexists. split; [reflexivity|]. split; [reflexivity|]. discriminate.
Qed.

(** ** Turn properties with well-formed entities *)

Lemma OnTurnProperty_intent (s : string) (entities : JSValue) :
  getProp (OnTurnProperty (JStr s) entities) "intent" = inr (JStr s).
Proof. destruct s; reflexivity. Qed.

Lemma filterItems_entities (name : string) (pairs : list (string * JSValue)) :
  filterItems name (map (fun nv => entityProperty (fst nv) (snd nv)) pairs)
  = inr (map (fun nv => entityProperty (fst nv) (snd nv))
             (filter (fun nv => fst nv =? name) pairs)).
Proof.
  induction pairs as [|[n v] pairs IH]; [reflexivity|].
  cbn [map filterItems filter fst snd].
  change (getProp (entityProperty n v) "entityName") with (@inr Exn _ (JStr n)).
  rewrite IH. cbn [looseEqStr]. now destruct (n =? name).
Qed.

Lemma entitiesNamed_entities (name : string) (intent : JSValue)
      (pairs : list (string * JSValue)) :
  entitiesNamed name (OnTurnProperty intent (entitiesOf pairs))
  = inr (map (fun nv => entityProperty (fst nv) (snd nv))
             (filter (fun nv => fst nv =? name) pairs)).
Proof.
  unfold entitiesNamed, OnTurnProperty, entitiesOf.
  cbn [getProp lookup String.eqb Ascii.eqb Bool.eqb truthy].
  apply filterItems_entities.
Qed.

Lemma firstNamed_filter (name : string) (pairs : list (string * JSValue))
      (nv : string * JSValue) :
  firstNamed name pairs = Some nv ->
  exists others, filter (fun nv => fst nv =? name) pairs = nv :: others.
Proof.
  unfold firstNamed. induction pairs as [|p pairs IH]; [discriminate|].
  cbn [find filter]. destruct (fst p =? name).
  - intros [= ->]. now eexists.
  - exact IH.
Qed.

(** ** The "who are you" short cut *)

(** C7.  A turn with the "who are you" intent whose user-name entity
    (the first entity named [userName_patternAny]) carries the recognised
    value [alice], as an entity of a LUIS result does in a one-element
    array: [beginChildDialog] stores the profile [Alice], greets, and
    returns the response of that send; the stack is not touched and the
    "who are you" dialog is not begun.  The same holds for the whole of
    [mainDispatch] when no dialog is active at the start of the turn. *)
Theorem reintroduction_sets_user_name :
  forall (E : Env) (fuel : nat) (payload : JSValue)
         (pairs : list (string * JSValue)) (n : string) (w : World),
    ~ In (WhoAreYouDialog_Name (names E))
         [QnADialog_Name (names E); ChitChatDialog_Name (names E);
          HelpDialog_Name (names E); CancelDialog_Name (names E)] ->
    firstNamed V2.USER_NAME_ENTITY pairs = Some (n, JArr [JStr "alice"]) ->
    V2.beginChildDialog E (S fuel)
      (OnTurnProperty (JStr (WhoAreYouDialog_Name (names E))) (entitiesOf pairs))
      payload w
    = sendActivity E (V2.greetAgain "Alice")
                   (set_userProfile (mkUserProfile "Alice") w)
    /\ (exists r w',
           V2.beginChildDialog E (S fuel)
             (OnTurnProperty (JStr (WhoAreYouDialog_Name (names E)))
                             (entitiesOf pairs))
             payload w = Ok r w'
           /\ userProfile w' = Some (mkUserProfile "Alice")
           /\ outbox w' = (outbox w ++ [V2.greetAgain "Alice"])%list
           /\ stack w' = stack w)
    /\ (WhoAreYouDialog_Name (names E) <> WhatCanYouDoDialog_Name (names E) ->
        stack w = [] ->
        responded w = false ->
        exists r w',
          V2.mainDispatch E (S fuel)
            (OnTurnProperty (JStr (WhoAreYouDialog_Name (names E)))
                            (entitiesOf pairs)) w = Ok r w'
          /\ userProfile w' = Some (mkUserProfile "Alice")
          /\ outbox w' = (outbox w ++ [V2.greetAgain "Alice"])%list
          /\ stack w' = []).
Proof.
  intros E fuel payload pairs n w Hlabels Hname.
  destruct (not_in_cons_neq _ _ _ Hlabels) as [Hqna Hl1].
  destruct (not_in_cons_neq _ _ _ Hl1) as [Hchit Hl2].
  destruct (not_in_cons_neq _ _ _ Hl2) as [Hhelp Hl3].
  destruct (not_in_cons_neq _ _ _ Hl3) as [Hcancel _].
  destruct (firstNamed_filter _ _ _ Hname) as [others Hfilter].
  assert (Hbegin :
            forall fuel' payload' w0,
              V2.beginChildDialog E (S fuel')
                (OnTurnProperty (JStr (WhoAreYouDialog_Name (names E)))
                                (entitiesOf pairs))
                payload' w0
              = sendActivity E (V2.greetAgain "Alice")
                             (set_userProfile (mkUserProfile "Alice") w0)).
  { intros fuel' payload' w0.
    cbn [V2.beginChildDialog]. unfold bind at 1.
    rewrite OnTurnProperty_intent. cbn [lift ret].
    rewrite Hqna, Hchit, Hhelp, Hcancel, strictEqStr_refl. cbn [orb].
    unfold V2.beginWhoAreYouDialog, bind, gets, lift, ret, modify.
    rewrite entitiesNamed_entities, Hfilter. reflexivity. }
  split; [apply Hbegin|]. split.
  - eexists. eexists. split; [rewrite Hbegin; reflexivity|].
    now repeat split.
  - intros Hwhat Hidle Hsilent.
    assert (Hallowed :
              V2.isRequestedOperationPossible E w
                (JStr (WhoAreYouDialog_Name (names E))) = mkOutcome true "").
    { unfold V2.isRequestedOperationPossible.
      now rewrite (strictEqStr_neq _ _ Hwhat), Hcancel. }
    unfold V2.mainDispatch, bind at 1.
    rewrite OnTurnProperty_intent. cbn [lift ret].
    unfold bind at 1, gets. rewrite Hallowed. cbn [allowed negb].
    unfold V2.continueOrBegin, bind, gets, dc_continue.
    rewrite Hidle, Hsilent. cbn [negb].
    rewrite Hbegin. unfold sendActivity.
    destruct (resourceResponse E _ _); cbn [V2.reconcile].
    + eexists. eexists. split; [reflexivity|]. now repeat split.
    + unfold dc_end. cbn [stack sent set_userProfile]. rewrite Hidle.
      cbn [tl]. eexists. eexists. split; [reflexivity|]. now repeat split.
Qed.

(** The turn property of C7 is the one [fromLUISResults] builds from a
    LUIS result with that top intent and that entity. *)
Lemma alice_turn_fromLUISResults :
  fromLUISResults "WhoAreYou" ["userName_patternAny"]
                  [("userName_patternAny", JArr [JStr "alice"])]
  = OnTurnProperty (JStr "WhoAreYou")
                   (entitiesOf [("userName_patternAny", JArr [JStr "alice"])]).
Proof. reflexivity. Qed.

Lemma reintroduction_sets_user_name_witness :
  exists r w',
    V2.mainDispatch (cafeEnv None false emptyTurnResult) 1
      (OnTurnProperty (JStr "WhoAreYou")
                      (entitiesOf [("userName_patternAny", JArr [JStr "alice"])]))
      (turnStart [] None) = Ok r w'
    /\ userProfile w' = Some (mkUserProfile "Alice")
    /\ outbox w'
       = [Text "Hello Alice, Nice to meet you again! I'm the Contoso Cafe Bot."]
    /\ stack w' = [].
Proof.
  destruct (reintroduction_sets_user_name
              (cafeEnv None false emptyTurnResult) 0 JUndefined
              [("userName_patternAny", JArr [JStr "alice"])]
              "userName_patternAny" (turnStart [] None))
    as [_ [_ Hturn]].
  - simpl. intuition discriminate.
  - reflexivity.
  - apply Hturn; [discriminate | reflexivity | reflexivity].
Defined.

(** ** The "what can you do" card *)

(** C8.  A turn with the "what can you do" intent whose query entity
    (the first entity named [query]) holds a string that [JSON.parse]
    rejects: the helper sends the corrective message "Try and choose a
    query from the card before you click the 'Let's talk!' button." and
    returns the response of that send, whatever the recursive call would
    do; one unit of fuel is enough, so [beginChildDialog] is not entered
    again.  Nothing is thrown, and apart from the message sent the world
    is as before: stack, user profile, active-dialog property and incoming
    text.  In [mainDispatch], when the intent is allowed and no one has
    responded after [dc.continue()], the helper's answer is the outcome
    examined: a resource response is returned as it is, in the world with
    the message added; with no response from the adapter the dispatcher
    goes on to [dc.end()].  When no dialog is active at the start of the
    turn the stack is empty before and after. *)
Theorem malformed_card_query_is_answered :
  forall (E : Env) (fuel : nat) (payload : JSValue)
         (again : JSValue -> M Returned)
         (pairs : list (string * JSValue)) (n s : string) (w : World),
    ~ In (WhatCanYouDoDialog_Name (names E))
         [QnADialog_Name (names E); ChitChatDialog_Name (names E);
          HelpDialog_Name (names E); CancelDialog_Name (names E);
          WhoAreYouDialog_Name (names E);
          FindCafeLocationsDialog_Name (names E)] ->
    firstNamed V2.QUERY_PROPERTY pairs = Some (n, JStr s) ->
    JSON_parse E (JStr s) = None ->
    V2.beginWhatCanYouDoDialog E again
      (OnTurnProperty (JStr (WhatCanYouDoDialog_Name (names E)))
                      (entitiesOf pairs)) w
    = sendActivity E
        (Text "Try and choose a query from the card before you click the 'Let's talk!' button.") w
    /\ V2.beginChildDialog E 1
         (OnTurnProperty (JStr (WhatCanYouDoDialog_Name (names E)))
                         (entitiesOf pairs)) payload w
       = sendActivity E
           (Text "Try and choose a query from the card before you click the 'Let's talk!' button.") w
    /\ (exists r w',
           V2.beginChildDialog E (S fuel)
             (OnTurnProperty (JStr (WhatCanYouDoDialog_Name (names E)))
                             (entitiesOf pairs)) payload w
           = Ok r w'
           /\ (r = RUndefined \/ exists i, r = RResource i)
           /\ outbox w'
              = (outbox w
                 ++ [Text "Try and choose a query from the card before you click the 'Let's talk!' button."])%list
           /\ stack w' = stack w
           /\ userProfile w' = userProfile w
           /\ activeDialogProperty w' = activeDialogProperty w
           /\ activity_text w' = activity_text w)
    /\ (forall (r0 : DialogTurnResult) (w1 : World),
           allowed (V2.isRequestedOperationPossible E w
                      (JStr (WhatCanYouDoDialog_Name (names E)))) = true ->
           dc_continue E w = Ok r0 w1 ->
           responded w1 = false ->
           V2.mainDispatch E (S fuel)
             (OnTurnProperty (JStr (WhatCanYouDoDialog_Name (names E)))
                             (entitiesOf pairs)) w
           = match resourceResponse E w1
                     (Text "Try and choose a query from the card before you click the 'Let's talk!' button.") with
             | Some i =>
                 Ok (RResource i)
                    (sent (Text "Try and choose a query from the card before you click the 'Let's talk!' button.") w1)
             | None =>
                 dc_end E
                   (sent (Text "Try and choose a query from the card before you click the 'Let's talk!' button.") w1)
             end)
    /\ (stack w = [] ->
        responded w = false ->
        exists r w',
          V2.mainDispatch E (S fuel)
            (OnTurnProperty (JStr (WhatCanYouDoDialog_Name (names E)))
                            (entitiesOf pairs)) w = Ok r w'
          /\ outbox w'
             = (outbox w
                ++ [Text "Try and choose a query from the card before you click the 'Let's talk!' button."])%list
          /\ stack w' = []
          /\ userProfile w' = userProfile w
          /\ activeDialogProperty w' = activeDialogProperty w
          /\ activity_text w' = activity_text w).
Proof.
  intros E fuel payload again pairs n s w Hlabels Hquery Hparse.
  destruct (not_in_cons_neq _ _ _ Hlabels) as [Hqna Hl1].
  destruct (not_in_cons_neq _ _ _ Hl1) as [Hchit Hl2].
  destruct (not_in_cons_neq _ _ _ Hl2) as [Hhelp Hl3].
  destruct (not_in_cons_neq _ _ _ Hl3) as [Hcancel Hl4].
  destruct (not_in_cons_neq _ _ _ Hl4) as [Hwho Hl5].
  destruct (not_in_cons_neq _ _ _ Hl5) as [Hfind _].
  destruct (firstNamed_filter _ _ _ Hquery) as [others Hfilter].
  assert (Hhelper :
            forall again' w0,
              V2.beginWhatCanYouDoDialog E again'
                (OnTurnProperty (JStr (WhatCanYouDoDialog_Name (names E)))
                                (entitiesOf pairs)) w0
              = sendActivity E V2.chooseAQuery w0).
  { intros again' w0.
    unfold V2.beginWhatCanYouDoDialog, bind, lift, ret.
    rewrite entitiesNamed_entities, Hfilter.
    cbn [map fst snd].
    change (getProp (entityProperty n (JStr s)) "entityValue")
      with (@inr Exn _ (JStr s)).
    cbv beta iota. now rewrite Hparse. }
  assert (Hbegin :
            forall fuel' payload' w0,
              V2.beginChildDialog E (S fuel')
                (OnTurnProperty (JStr (WhatCanYouDoDialog_Name (names E)))
                                (entitiesOf pairs)) payload' w0
              = sendActivity E V2.chooseAQuery w0).
  { intros fuel' payload' w0.
    cbn [V2.beginChildDialog]. unfold bind at 1.
    rewrite OnTurnProperty_intent. cbn [lift ret].
    rewrite Hqna, Hchit, Hhelp, Hcancel, Hwho, Hfind, strictEqStr_refl.
    cbn [orb]. apply Hhelper. }
  assert (Hturn :
            forall r0 w1,
              allowed (V2.isRequestedOperationPossible E w
                         (JStr (WhatCanYouDoDialog_Name (names E)))) = true ->
              dc_continue E w = Ok r0 w1 ->
              responded w1 = false ->
              V2.mainDispatch E (S fuel)
                (OnTurnProperty (JStr (WhatCanYouDoDialog_Name (names E)))
                                (entitiesOf pairs)) w
              = match resourceResponse E w1 V2.chooseAQuery with
                | Some i => Ok (RResource i) (sent V2.chooseAQuery w1)
                | None => dc_end E (sent V2.chooseAQuery w1)
                end).
  { intros r0 w1 Hallowed Hcontinue Hsilent.
    unfold V2.mainDispatch, bind at 1.
    rewrite OnTurnProperty_intent. cbn [lift ret].
    unfold bind at 1, gets. rewrite Hallowed. cbn [negb].
    unfold V2.continueOrBegin, bind, gets.
    rewrite Hcontinue, Hsilent. cbn [negb].
    rewrite Hbegin. unfold sendActivity.
    destruct (resourceResponse E w1 V2.chooseAQuery); reflexivity. }
  split; [apply Hhelper|]. split; [apply Hbegin|]. split; [|split].
  - eexists. eexists. split; [rewrite Hbegin; reflexivity|].
    split; [|now repeat split].
    destruct (resourceResponse E w V2.chooseAQuery) as [i|];
      [right; now exists i | now left].
  - exact Hturn.
  - intros Hidle Hsilent.
    assert (Hallowed :
              allowed (V2.isRequestedOperationPossible E w
                         (JStr (WhatCanYouDoDialog_Name (names E)))) = true).
    { unfold V2.isRequestedOperationPossible, activeDialog.
      now rewrite strictEqStr_refl, Hidle. }
    assert (Hcontinue : dc_continue E w = Ok emptyTurnResult w)
      by (unfold dc_continue; now rewrite Hidle).
    rewrite (Hturn _ _ Hallowed Hcontinue Hsilent).
    destruct (resourceResponse E w V2.chooseAQuery).
    + eexists. eexists. split; [reflexivity|]. now repeat split.
    + unfold dc_end. cbn [stack sent]. rewrite Hidle.
      cbn [tl]. eexists. eexists. split; [reflexivity|]. now repeat split.
Qed.

Lemma malformed_card_query_is_answered_witness :
  JSON_parse (cafeEnv None false emptyTurnResult) (JStr "{text:") = None
  /\ V2.mainDispatch (cafeEnv None false emptyTurnResult) 1
       (OnTurnProperty (JStr "WhatCanYouDo")
                       (entitiesOf [("query", JStr "{text:")]))
       (turnStart [] None)
     = Ok (RResource "1")
          (mkWorld [] true
                   [Text "Try and choose a query from the card before you click the 'Let's talk!' button."]
                   (JStr "hi") None None).
Proof.
  split; [reflexivity|].
  destruct (malformed_card_query_is_answered
              (cafeEnv None false emptyTurnResult) 0 JUndefined
              (fun _ => ret RUndefined)
              [("query", JStr "{text:")] "query" "{text:" (turnStart [] None))
    as [_ [_ [_ [Hturn _]]]].
  - simpl. intuition discriminate.
  - reflexivity.
  - reflexivity.
  - exact (Hturn emptyTurnResult (turnStart [] None) eq_refl eq_refl eq_refl).
Defined.

(** * Further properties of the two dispatchers *)

Lemma strictEqStr_true_iff (v : JSValue) (s : string) :
  strictEqStr v s = true <-> v = JStr s.
Proof.
  split.
  - destruct v; simpl; try discriminate.
    intro H. apply String.eqb_eq in H. now subst.
  - intros ->. apply strictEqStr_refl.
Qed.

Lemma idEq_true_iff (a : option string) (s : string) :
  idEq a s = true <-> a = Some s.
Proof.
  destruct a as [t|]; simpl.
  - rewrite String.eqb_eq. split; [now intros -> | now intros [= ->]].
  - split; discriminate.
Qed.

(** ** The permission evaluators, in full *)

(** X1.  The evaluator of the later dispatcher denies exactly two
    requests: "what can you do" while the "who are you" dialog is active,
    and cancel while nothing is active.  Whatever it allows carries the
    empty reason. *)
Theorem later_permission_denied_iff :
  forall (E : Env) (w : World) (requestedOperation : JSValue),
    CancelDialog_Name (names E) <> WhatCanYouDoDialog_Name (names E) ->
    (allowed (V2.isRequestedOperationPossible E w requestedOperation) = false
     <-> (requestedOperation = JStr (WhatCanYouDoDialog_Name (names E))
          /\ activeDialog w = Some (WhoAreYouDialog_Name (names E)))
         \/ (requestedOperation = JStr (CancelDialog_Name (names E))
             /\ activeDialog w = None))
    /\ (allowed (V2.isRequestedOperationPossible E w requestedOperation) = true ->
        V2.isRequestedOperationPossible E w requestedOperation = mkOutcome true "").
Proof.
  intros E w req Hnames. unfold V2.isRequestedOperationPossible.
  destruct (strictEqStr req (WhatCanYouDoDialog_Name (names E))) eqn:Hwhat.
  - apply strictEqStr_true_iff in Hwhat. subst req.
    destruct (idEq (activeDialog w) (WhoAreYouDialog_Name (names E))) eqn:Hwho.
    + apply idEq_true_iff in Hwho. split; [|discriminate]. split; [now left|reflexivity].
    + split; [|reflexivity]. split; [discriminate|].
      intros [[_ Hactive] | [Hreq _]].
      * apply idEq_true_iff in Hactive. congruence.
      * congruence.
  - assert (Hnot : req <> JStr (WhatCanYouDoDialog_Name (names E))).
    { intro Heq. apply strictEqStr_true_iff in Heq. congruence. }
    destruct (strictEqStr req (CancelDialog_Name (names E))) eqn:Hcancel.
    + apply strictEqStr_true_iff in Hcancel. subst req.
      destruct (activeDialog w) as [a|].
      * split; [|reflexivity]. split; [discriminate|].
        intros [[Hreq _] | [_ Hactive]]; [now elim Hnot | discriminate].
      * split; [|discriminate]. split; [now right|reflexivity].
    + split; [|reflexivity]. split; [discriminate|].
      intros [[Hreq _] | [Hreq _]]; [now elim Hnot|].
      apply strictEqStr_true_iff in Hreq. congruence.
Qed.

Lemma later_permission_denied_iff_witness :
  allowed (V2.isRequestedOperationPossible
             (cafeEnv None false emptyTurnResult)
             (turnStart ["WhoAreYou"] None) (JStr "WhatCanYouDo")) = false
  /\ V2.isRequestedOperationPossible
       (cafeEnv None false emptyTurnResult)
       (turnStart ["WhoAreYou"] None) (JStr "Cancel") = mkOutcome true "".
Proof.
  split.
  - apply (proj1 (later_permission_denied_iff
                    (cafeEnv None false emptyTurnResult)
                    (turnStart ["WhoAreYou"] None) (JStr "WhatCanYouDo")
                    ltac:(discriminate))).
    left. split; reflexivity.
  - apply (proj2 (later_permission_denied_iff
                    (cafeEnv None false emptyTurnResult)
                    (turnStart ["WhoAreYou"] None) (JStr "Cancel")
                    ltac:(discriminate))).
    reflexivity.
Defined.

(** X2.  The evaluator of the early dispatcher denies a booking card
    intent (submit or cancel) unless the booking dialog is the active one,
    denies the cancel intent always, and allows every other request in
    every state. *)
Theorem early_permission_denied_iff :
  forall (E : Env) (w : World) (requestedOperation : JSValue),
    BookTableDialog_Name (names E) <> WhoAreYouDialog_Name (names E) ->
    CancelDialog_Name (names E) <> "Book_Table_Submit" ->
    CancelDialog_Name (names E) <> "Book_Table_Cancel" ->
    allowed (V1.isRequestedOperationPossible E w requestedOperation) = false
    <-> ((requestedOperation = JStr "Book_Table_Submit"
          \/ requestedOperation = JStr "Book_Table_Cancel")
         /\ activeDialogProperty w <> Some (BookTableDialog_Name (names E)))
        \/ requestedOperation = JStr (CancelDialog_Name (names E)).
Proof.
  intros E w req Hflows Hsubmit Hcancel.
  unfold V1.isRequestedOperationPossible.
  destruct (strictEqStr req "Book_Table_Submit"
            || strictEqStr req "Book_Table_Cancel") eqn:Hcard.
  - assert (Hreq : req = JStr "Book_Table_Submit"
                   \/ req = JStr "Book_Table_Cancel").
    { apply orb_true_iff in Hcard.
      destruct Hcard as [H|H]; apply strictEqStr_true_iff in H; auto. }
    assert (Hnot : req <> JStr (CancelDialog_Name (names E))).
    { destruct Hreq as [-> | ->]; congruence. }
    unfold idNeq.
    destruct (idEq (activeDialogProperty w) (BookTableDialog_Name (names E)))
             eqn:Hactive; simpl.
    + apply idEq_true_iff in Hactive. split; [discriminate|].
      intros [[_ Hno] | Hc]; [now elim Hno | now elim Hnot].
    + split; [|reflexivity]. intros _. left. split; [exact Hreq|].
      intro Heq. apply idEq_true_iff in Heq. congruence.
  - apply orb_false_iff in Hcard. destruct Hcard as [Hs Hc].
    destruct (strictEqStr req (CancelDialog_Name (names E))) eqn:Hcan.
    + apply strictEqStr_true_iff in Hcan.
      rewrite (cancel_guard_always_true _ _ _ Hflows).
      split; [now right | reflexivity].
    + split; [discriminate|].
      intros [[[Hreq | Hreq] _] | Hreq]; apply strictEqStr_true_iff in Hreq;
        congruence.
Qed.

Lemma early_permission_denied_iff_witness :
  allowed (V1.isRequestedOperationPossible
             (cafeEnv None false emptyTurnResult)
             (turnStart [] (Some "WhoAreYou")) (JStr "Book_Table_Cancel")) = false
  /\ allowed (V1.isRequestedOperationPossible
                (cafeEnv None false emptyTurnResult)
                (turnStart [] (Some "BookTable")) (JStr "Cancel")) = false.
Proof.
  split.
  - apply (proj2 (early_permission_denied_iff
                    (cafeEnv None false emptyTurnResult)
                    (turnStart [] (Some "WhoAreYou")) (JStr "Book_Table_Cancel")
                    ltac:(discriminate) ltac:(discriminate) ltac:(discriminate))).
    left. split; [now right | discriminate].
  - apply (proj2 (early_permission_denied_iff
                    (cafeEnv None false emptyTurnResult)
                    (turnStart [] (Some "BookTable")) (JStr "Cancel")
                    ltac:(discriminate) ltac:(discriminate) ltac:(discriminate))).
    now right.
Defined.

(** ** Reconciling the other outcomes *)

Lemma mainDispatch_when_allowed :
  forall (E : Env) (fuel : nat) (onTurnProperty intent : JSValue)
         (w w1 : World) (first : Returned),
    getProp onTurnProperty "intent" = inr intent ->
    allowed (V2.isRequestedOperationPossible E w intent) = true ->
    V2.continueOrBegin E fuel onTurnProperty w = Ok first w1 ->
    V2.mainDispatch E fuel onTurnProperty w
    = V2.reconcile E fuel onTurnProperty first w1.
Proof.
  intros E fuel onTurnProperty intent w w1 first Hintent Hallowed Hfirst.
  unfold V2.mainDispatch, bind, lift, gets, ret.
  rewrite Hintent, Hallowed. simpl. now rewrite Hfirst.
Qed.

Lemma reason_makes_truthy (v : JSValue) (s : string) :
  getProp v "reason" = inr (JStr s) -> truthy v = true.
Proof. destruct v; simpl; intro H; try discriminate; reflexivity. Qed.

(** X3.  When the outcome of [dc.continue()] or of [beginChildDialog()]
    is [complete] with reason [Abandon], the later dispatcher calls
    [beginChildDialog] with the turn property carried in the payload, and
    with no child-dialog payload: the dialog begun is the one for the
    carried turn's intent, not for the current turn's.  The result of that
    call is returned, [empty] standing in for [undefined]. *)
Theorem abandon_redispatches_carried_turn :
  forall (E : Env) (fuel : nat)
         (onTurnProperty intent payload carried : JSValue)
         (w w1 : World) (r : DialogTurnResult),
    getProp onTurnProperty "intent" = inr intent ->
    allowed (V2.isRequestedOperationPossible E w intent) = true ->
    V2.continueOrBegin E fuel onTurnProperty w = Ok (RTurn r) w1 ->
    status r = complete ->
    getProp (result r) "reason" = inr (JStr "Abandon") ->
    getProp (result r) "payload" = inr payload ->
    getProp payload "onTurnProperty" = inr carried ->
    V2.mainDispatch E fuel onTurnProperty w
    = (again <- V2.beginChildDialog E fuel carried JUndefined ;;
       ret (orEmpty again)) w1.
Proof.
  intros E fuel onTurnProperty intent payload carried w w1 r
         Hintent Hallowed Hfirst Hstatus Hreason Hpayload Hcarried.
  rewrite (mainDispatch_when_allowed _ _ _ _ _ _ _ Hintent Hallowed Hfirst).
  unfold V2.reconcile. rewrite Hstatus, (reason_makes_truthy _ _ Hreason).
  unfold bind, lift, ret. rewrite Hreason, Hpayload, Hcarried. reflexivity.
Qed.

Lemma abandon_redispatches_carried_turn_witness :
  V2.mainDispatch abandonedEnv 1 cancelTurn (turnStart ["WhoAreYou"] None)
  = Ok (RTurn (mkTurnResult waiting JUndefined))
       (sent (Text "begin FindCafeLocations")
             (set_stack [mkInstance "FindCafeLocations" (JObj [])]
                        (sent (Text "Later.") (turnStart [] None)))).
Proof.
  rewrite (abandon_redispatches_carried_turn
             abandonedEnv 1 cancelTurn (JStr "Cancel") abandonedPayload
             (OnTurnProperty (JStr "FindCafeLocations") (JArr []))
             (turnStart ["WhoAreYou"] None)
             (sent (Text "Later.") (turnStart [] None))
             abandonedResult
             eq_refl eq_refl eq_refl eq_refl eq_refl eq_refl eq_refl).
  reflexivity.
Defined.

(** X4.  An [Abandon] outcome whose payload is missing ([undefined] or
    [null]) makes the later dispatcher throw: reading [onTurnProperty] of
    the payload fails, in the world the finished dialog left, before
    anything is begun or sent. *)
Theorem abandon_without_payload_throws :
  forall (E : Env) (fuel : nat) (onTurnProperty intent payload : JSValue)
         (w w1 : World) (r : DialogTurnResult),
    getProp onTurnProperty "intent" = inr intent ->
    allowed (V2.isRequestedOperationPossible E w intent) = true ->
    V2.continueOrBegin E fuel onTurnProperty w = Ok (RTurn r) w1 ->
    status r = complete ->
    getProp (result r) "reason" = inr (JStr "Abandon") ->
    getProp (result r) "payload" = inr payload ->
    payload = JUndefined \/ payload = JNull ->
    V2.mainDispatch E fuel onTurnProperty w
    = Throw (TypeError "Cannot read property onTurnProperty") w1.
Proof.
  intros E fuel onTurnProperty intent payload w w1 r
         Hintent Hallowed Hfirst Hstatus Hreason Hpayload Hmissing.
  rewrite (mainDispatch_when_allowed _ _ _ _ _ _ _ Hintent Hallowed Hfirst).
  unfold V2.reconcile. rewrite Hstatus, (reason_makes_truthy _ _ Hreason).
  unfold bind, lift, ret. rewrite Hreason, Hpayload.
  destruct Hmissing as [-> | ->]; reflexivity.
Qed.

Lemma abandon_without_payload_throws_witness :
  V2.mainDispatch brokenAbandonEnv 1 cancelTurn (turnStart ["WhoAreYou"] None)
  = Throw (TypeError "Cannot read property onTurnProperty")
          (sent (Text "Later.") (turnStart [] None)).
Proof.
  apply (abandon_without_payload_throws
           brokenAbandonEnv 1 cancelTurn (JStr "Cancel") JUndefined
           (turnStart ["WhoAreYou"] None)
           (sent (Text "Later.") (turnStart [] None))
           brokenAbandonResult
           eq_refl eq_refl eq_refl eq_refl eq_refl eq_refl).
  now left.
Defined.

(** X5.  A [complete] outcome without a result is answered with the
    closing prompt; one whose result carries neither the [Interruption]
    nor the [Abandon] reason is passed on without a word.  In both cases
    the outcome itself is returned and the dispatcher leaves the stack as
    the finished dialog left it. *)
Theorem complete_outcome_prompts_only_without_result :
  forall (E : Env) (fuel : nat) (onTurnProperty intent : JSValue)
         (w w1 : World) (r : DialogTurnResult),
    getProp onTurnProperty "intent" = inr intent ->
    allowed (V2.isRequestedOperationPossible E w intent) = true ->
    V2.continueOrBegin E fuel onTurnProperty w = Ok (RTurn r) w1 ->
    status r = complete ->
    (truthy (result r) = false ->
     V2.mainDispatch E fuel onTurnProperty w
     = Ok (RTurn r) (sent (V2.closingPrompt E) w1))
    /\ (forall reason : JSValue,
           truthy (result r) = true ->
           getProp (result r) "reason" = inr reason ->
           reason <> JStr "Interruption" ->
           reason <> JStr "Abandon" ->
           V2.mainDispatch E fuel onTurnProperty w = Ok (RTurn r) w1).
Proof.
  intros E fuel onTurnProperty intent w w1 r Hintent Hallowed Hfirst Hstatus.
  rewrite (mainDispatch_when_allowed _ _ _ _ _ _ _ Hintent Hallowed Hfirst).
  unfold V2.reconcile. rewrite Hstatus. split.
  - intro Hfalsy. now rewrite Hfalsy.
  - intros reason Htruthy Hreason Hint Hab. rewrite Htruthy.
    unfold bind, lift, ret. rewrite Hreason.
    destruct (strictEqStr reason "Interruption") eqn:H1;
      [apply strictEqStr_true_iff in H1; now elim Hint|].
    destruct (strictEqStr reason "Abandon") eqn:H2;
      [apply strictEqStr_true_iff in H2; now elim Hab|].
    reflexivity.
Qed.

Lemma complete_outcome_prompts_only_without_result_witness :
  V2.mainDispatch (cafeEnv (Some "Done.") true (mkTurnResult complete JUndefined))
                  1 noneTurn (turnStart ["FindCafeLocations"] None)
  = Ok (RTurn (mkTurnResult complete JUndefined))
       (sent (V2.closingPrompt
                (cafeEnv (Some "Done.") true (mkTurnResult complete JUndefined)))
             (sent (Text "Done.") (turnStart [] None)))
  /\ V2.mainDispatch
       (cafeEnv (Some "Done.") true (mkTurnResult complete (JStr "Seattle")))
       1 noneTurn (turnStart ["FindCafeLocations"] None)
     = Ok (RTurn (mkTurnResult complete (JStr "Seattle")))
          (sent (Text "Done.") (turnStart [] None)).
Proof.
  split.
  - apply (proj1 (complete_outcome_prompts_only_without_result
                    (cafeEnv (Some "Done.") true (mkTurnResult complete JUndefined))
                    1 noneTurn (JStr "None")
                    (turnStart ["FindCafeLocations"] None)
                    (sent (Text "Done.") (turnStart [] None))
                    (mkTurnResult complete JUndefined)
                    eq_refl eq_refl eq_refl eq_refl)).
    reflexivity.
  - apply (proj2 (complete_outcome_prompts_only_without_result
                    (cafeEnv (Some "Done.") true
                             (mkTurnResult complete (JStr "Seattle")))
                    1 noneTurn (JStr "None")
                    (turnStart ["FindCafeLocations"] None)
                    (sent (Text "Done.") (turnStart [] None))
                    (mkTurnResult complete (JStr "Seattle"))
                    eq_refl eq_refl eq_refl eq_refl)
                 JUndefined eq_refl eq_refl);
      discriminate.
Defined.

Lemma later_cancelled_outcome_clears_stack_witness :
  V2.mainDispatch cancelledEnv 1 noneTurn twoFrames
  = Ok (RTurn (mkTurnResult cancelled JUndefined))
       (set_stack [] (sent (V2.closingPrompt cancelledEnv)
                           (sent (Text "Okay, cancelled.") twoFrames))).
Proof.
  apply (later_cancelled_outcome_clears_stack
           cancelledEnv 1 noneTurn (JStr "None") twoFrames
           (sent (Text "Okay, cancelled.") twoFrames)
           (mkTurnResult cancelled JUndefined)
           eq_refl eq_refl eq_refl eq_refl).
Defined.

(** ** What the dispatchers never return *)

Lemma dc_end_returns_a_turn_result (E : Env) (w w' : World) (r : Returned) :
  dc_end E w = Ok r w' -> r <> RUndefined.
Proof.
  unfold dc_end. destruct (tl (stack w)) as [|parent rest].
  - intros [= <- _]. discriminate.
  - destruct (dialogResume E (inst_id parent) JUndefined _) as [t w2].
    intros [= <- _]. discriminate.
Qed.

Lemma orEmpty_is_defined (x : Returned) : orEmpty x <> RUndefined.
Proof. destruct x; discriminate. Qed.

(** X7.  Neither dispatcher ever hands [undefined] back to its caller:
    whenever [mainDispatch] or the early [onDialogContinue] returns, the
    value is a dialog turn result or the response of a sent activity. *)
Theorem dispatchers_never_return_undefined :
  forall (E : Env) (fuel : nat) (onTurnProperty : JSValue) (w w' : World)
         (r : Returned),
    (V2.mainDispatch E fuel onTurnProperty w = Ok r w' -> r <> RUndefined)
    /\ (V1.onDialogContinue E onTurnProperty w = Ok r w' -> r <> RUndefined).
Proof.
  intros E fuel onTurnProperty w w' r. split.
  - unfold V2.mainDispatch, bind, lift, gets, ret, throw.
    destruct (getProp onTurnProperty "intent") as [e|intent]; [discriminate|].
    destruct (allowed (V2.isRequestedOperationPossible E w intent)); simpl.
    + destruct (V2.continueOrBegin E fuel onTurnProperty w)
        as [first w1| |]; try discriminate.
      unfold V2.reconcile.
      destruct first as [|t|i].
      * apply dc_end_returns_a_turn_result.
      * destruct (status t).
        -- intros [= <- _]. discriminate.
        -- intros [= <- _]. discriminate.
        -- destruct (truthy (result t)).
           ++ unfold bind, lift, ret, throw.
              destruct (getProp (result t) "reason") as [e|reason];
                [discriminate|].
              destruct (strictEqStr reason "Interruption").
              ** destruct (getProp (result t) "payload") as [e|payload];
                   [discriminate|].
                 destruct (V2.beginChildDialog E fuel onTurnProperty payload w1)
                   as [again w2| |]; try discriminate.
                 intros [= <- _]. apply orEmpty_is_defined.
              ** destruct (strictEqStr reason "Abandon").
                 --- destruct (getProp (result t) "payload") as [e|payload];
                       [discriminate|].
                     destruct (getProp payload "onTurnProperty") as [e|old];
                       [discriminate|].
                     destruct (V2.beginChildDialog E fuel old JUndefined w1)
                       as [again w2| |]; try discriminate.
                     intros [= <- _]. apply orEmpty_is_defined.
                 --- intros [= <- _]. discriminate.
           ++ unfold bind, sendActivity, ret. intros [= <- _]. discriminate.
        -- unfold bind, sendActivity, dc_cancelAll, modify, ret.
           intros [= <- _]. discriminate.
      * intros [= <- _]. discriminate.
    + unfold sendActivity. apply dc_end_returns_a_turn_result.
  - unfold V1.onDialogContinue, bind, lift, gets, ret, throw.
    destruct (getProp onTurnProperty "intent") as [e|intent]; [discriminate|].
    destruct (allowed (V1.isRequestedOperationPossible E w intent)); simpl.
    + destruct (dc_continue E w) as [t w1| |]; try discriminate.
      destruct (status_eqb (status t) empty); simpl.
      * destruct (V1.statusSwitch E onTurnProperty t w1)
          as [x w2| |]; try discriminate.
        intros [= <- _]. apply orEmpty_is_defined.
      * intros [= <- _]. discriminate.
    + unfold sendActivity. intros [= <- _]. discriminate.
Qed.

(** ** The early dispatcher begins nothing *)

(** X8.  The early dispatcher never begins a dialog: a turn that starts
    with an empty dialog stack ends with an empty dialog stack, whatever
    the intent, provided the QnA dialog it calls directly (which only gets
    the turn context) leaves the stack alone. *)
Theorem early_stack_stays_empty :
  forall (E : Env) (onTurnProperty : JSValue) (w w' : World) (r : Returned),
    (forall w0 : World, stack (snd (qnaOnTurn E w0)) = stack w0) ->
    stack w = [] ->
    V1.onDialogContinue E onTurnProperty w = Ok r w' ->
    stack w' = [].
Proof.
  intros E onTurnProperty w w' r Hqna Hidle.
  unfold V1.onDialogContinue, bind, lift, gets, ret, throw.
  destruct (getProp onTurnProperty "intent") as [e|intent] eqn:Hintent;
    [discriminate|].
  destruct (allowed (V1.isRequestedOperationPossible E w intent)); simpl.
  - unfold dc_continue. rewrite Hidle. simpl.
    unfold V1.statusSwitch, V1.beginChildDialog, bind, lift, ret. simpl.
    rewrite Hintent.
    repeat match goal with
           | |- context [if ?b then _ else _] => destruct b
           end;
      unfold sendActivity;
      try (intros [= _ <-]; simpl; assumption).
    specialize (Hqna w). destruct (qnaOnTurn E w) as [x w2].
    intros [= _ <-]. simpl in Hqna. congruence.
  - unfold sendActivity. intros [= _ <-]. exact Hidle.
Qed.

Lemma early_stack_stays_empty_witness :
  exists r w',
    V1.onDialogContinue (cafeEnv None false emptyTurnResult)
                        (OnTurnProperty (JStr "WhoAreYou") (JArr []))
                        (turnStart [] None) = Ok r w'
    /\ outbox w' = [Text "Who are You!"]
    /\ stack w' = [].
Proof.
  eexists. eexists. split; [reflexivity|]. split; [reflexivity|].
  apply (early_stack_stays_empty
           (cafeEnv None false emptyTurnResult)
           (OnTurnProperty (JStr "WhoAreYou") (JArr []))
           (turnStart [] None) _ _ (fun _ => eq_refl) eq_refl eq_refl).
Defined.

Lemma dispatchers_never_return_undefined_witness :
  V1.onDialogContinue (cafeEnv None false emptyTurnResult)
                      (OnTurnProperty (JStr "Weather") (JArr []))
                      (turnStart [] None)
  = Ok (RTurn emptyTurnResult) (turnStart [] None)
  /\ RTurn emptyTurnResult <> RUndefined.
Proof.
  split; [reflexivity|].
  apply (proj2 (dispatchers_never_return_undefined
                  (cafeEnv None false emptyTurnResult) 1
                  (OnTurnProperty (JStr "Weather") (JArr []))
                  (turnStart [] None) (turnStart [] None)
                  (RTurn emptyTurnResult))).
  reflexivity.
Defined.

Lemma payload_only_reaches_cancel_witness :
  V2.beginChildDialog (cafeEnv None false emptyTurnResult) 1
    (OnTurnProperty (JStr "FindCafeLocations") (JArr []))
    (JStr "left over") (turnStart [] None)
  = V2.beginChildDialog (cafeEnv None false emptyTurnResult) 1
      (OnTurnProperty (JStr "FindCafeLocations") (JArr []))
      JUndefined (turnStart [] None).
Proof.
  apply (payload_only_reaches_cancel
           (cafeEnv None false emptyTurnResult) 1
           (OnTurnProperty (JStr "FindCafeLocations") (JArr []))
           (JStr "FindCafeLocations") (JStr "left over") (turnStart [] None)
           eq_refl eq_refl).
Defined.

Lemma silent_continue_is_followed_by_begin_witness :
  V2.continueOrBegin
    (cafeEnv None false (mkTurnResult waiting JUndefined)) 1
    whoTurn (turnStart ["WhoAreYou"] None)
  = Ok (RTurn (mkTurnResult waiting JUndefined))
       (sent (Text "begin WhoAreYou")
             (set_stack [mkInstance "WhoAreYou" (JObj []);
                         mkInstance "WhoAreYou" (JObj [])]
                        (sent (Text "Hello, I'm the Contoso Cafe Bot.")
                              (turnStart ["WhoAreYou"] None)))).
Proof.
  rewrite (silent_continue_is_followed_by_begin
             (cafeEnv None false (mkTurnResult waiting JUndefined)) 1
             whoTurn (turnStart ["WhoAreYou"] None)
             (turnStart ["WhoAreYou"] None)
             (mkTurnResult waiting JUndefined) eq_refl eq_refl).
  reflexivity.
Defined.

(** ** The [switch] of [beginChildDialog] *)

Lemma strictEqStr_false (v : JSValue) (s : string) :
  v <> JStr s -> strictEqStr v s = false.
Proof.
  intro H. destruct (strictEqStr v s) eqn:Heq; [|reflexivity].
  apply strictEqStr_true_iff in Heq. now elim H.
Qed.

Lemma beginChildDialog_switch :
  forall (E : Env) (fuel : nat) (onTurnProperty payload intent : JSValue)
         (w : World),
    getProp onTurnProperty "intent" = inr intent ->
    V2.beginChildDialog E (S fuel) onTurnProperty payload w
    = (if strictEqStr intent (QnADialog_Name (names E))
          || strictEqStr intent (ChitChatDialog_Name (names E))
          || strictEqStr intent (HelpDialog_Name (names E))
       then dc_begin E (QnADialog_Name (names E)) JUndefined
       else if strictEqStr intent (CancelDialog_Name (names E))
       then dc_begin E (CancelDialog_Name (names E)) payload
       else if strictEqStr intent (WhoAreYouDialog_Name (names E))
       then V2.beginWhoAreYouDialog E onTurnProperty
       else if strictEqStr intent (FindCafeLocationsDialog_Name (names E))
       then dc_begin E (FindCafeLocationsDialog_Name (names E)) JUndefined
       else if strictEqStr intent (WhatCanYouDoDialog_Name (names E))
       then V2.beginWhatCanYouDoDialog E
              (fun parsedJSON => V2.beginChildDialog E fuel parsedJSON JUndefined)
              onTurnProperty
       else if strictEqStr intent V2.NONE_INTENT
       then
         sendActivity E
           (Text "I'm still learning.. Sorry, I do not know how to help you with that.") ;;
         text <- gets activity_text ;;
         sendActivity E
           (Text ("Follow [this link](https://www.bing.com/search?q="
                  ++ toStr text ++ ") to search the web!"))
       else ret RUndefined) w.
Proof.
  intros E fuel onTurnProperty payload intent w Hintent.
  cbn [V2.beginChildDialog]. unfold bind at 1. rewrite Hintent.
  reflexivity.
Qed.

Lemma beginChildDialog_who :
  forall (E : Env) (fuel : nat) (onTurnProperty payload : JSValue) (w : World),
    ~ In (WhoAreYouDialog_Name (names E))
         [QnADialog_Name (names E); ChitChatDialog_Name (names E);
          HelpDialog_Name (names E); CancelDialog_Name (names E)] ->
    getProp onTurnProperty "intent"
    = inr (JStr (WhoAreYouDialog_Name (names E))) ->
    V2.beginChildDialog E (S fuel) onTurnProperty payload w
    = V2.beginWhoAreYouDialog E onTurnProperty w.
Proof.
  intros E fuel onTurnProperty payload w Hlabels Hintent.
  destruct (not_in_cons_neq _ _ _ Hlabels) as [Hqna Hl1].
  destruct (not_in_cons_neq _ _ _ Hl1) as [Hchit Hl2].
  destruct (not_in_cons_neq _ _ _ Hl2) as [Hhelp Hl3].
  destruct (not_in_cons_neq _ _ _ Hl3) as [Hcancel _].
  rewrite (beginChildDialog_switch _ _ _ _ _ _ Hintent).
  now rewrite Hqna, Hchit, Hhelp, Hcancel, strictEqStr_refl.
Qed.

Lemma beginChildDialog_what :
  forall (E : Env) (fuel : nat) (onTurnProperty payload : JSValue) (w : World),
    ~ In (WhatCanYouDoDialog_Name (names E))
         [QnADialog_Name (names E); ChitChatDialog_Name (names E);
          HelpDialog_Name (names E); CancelDialog_Name (names E);
          WhoAreYouDialog_Name (names E);
          FindCafeLocationsDialog_Name (names E)] ->
    getProp onTurnProperty "intent"
    = inr (JStr (WhatCanYouDoDialog_Name (names E))) ->
    V2.beginChildDialog E (S fuel) onTurnProperty payload w
    = V2.beginWhatCanYouDoDialog E
        (fun parsedJSON => V2.beginChildDialog E fuel parsedJSON JUndefined)
        onTurnProperty w.
Proof.
  intros E fuel onTurnProperty payload w Hlabels Hintent.
  destruct (not_in_cons_neq _ _ _ Hlabels) as [Hqna Hl1].
  destruct (not_in_cons_neq _ _ _ Hl1) as [Hchit Hl2].
  destruct (not_in_cons_neq _ _ _ Hl2) as [Hhelp Hl3].
  destruct (not_in_cons_neq _ _ _ Hl3) as [Hcancel Hl4].
  destruct (not_in_cons_neq _ _ _ Hl4) as [Hwho Hl5].
  destruct (not_in_cons_neq _ _ _ Hl5) as [Hfind _].
  rewrite (beginChildDialog_switch _ _ _ _ _ _ Hintent).
  now rewrite Hqna, Hchit, Hhelp, Hcancel, Hwho, Hfind, strictEqStr_refl.
Qed.

Lemma beginChildDialog_none :
  forall (E : Env) (fuel : nat) (onTurnProperty payload : JSValue) (w : World),
    ~ In V2.NONE_INTENT
         [QnADialog_Name (names E); ChitChatDialog_Name (names E);
          HelpDialog_Name (names E); CancelDialog_Name (names E);
          WhoAreYouDialog_Name (names E);
          FindCafeLocationsDialog_Name (names E);
          WhatCanYouDoDialog_Name (names E)] ->
    getProp onTurnProperty "intent" = inr (JStr V2.NONE_INTENT) ->
    V2.beginChildDialog E (S fuel) onTurnProperty payload w
    = sendActivity E
        (Text ("Follow [this link](https://www.bing.com/search?q="
               ++ toStr (activity_text w) ++ ") to search the web!"))
        (sent (Text "I'm still learning.. Sorry, I do not know how to help you with that.")
              w).
Proof.
  intros E fuel onTurnProperty payload w Hlabels Hintent.
  destruct (not_in_cons_neq _ _ _ Hlabels) as [Hqna Hl1].
  destruct (not_in_cons_neq _ _ _ Hl1) as [Hchit Hl2].
  destruct (not_in_cons_neq _ _ _ Hl2) as [Hhelp Hl3].
  destruct (not_in_cons_neq _ _ _ Hl3) as [Hcancel Hl4].
  destruct (not_in_cons_neq _ _ _ Hl4) as [Hwho Hl5].
  destruct (not_in_cons_neq _ _ _ Hl5) as [Hfind Hl6].
  destruct (not_in_cons_neq _ _ _ Hl6) as [Hwhat _].
  rewrite (beginChildDialog_switch _ _ _ _ _ _ Hintent).
  rewrite Hqna, Hchit, Hhelp, Hcancel, Hwho, Hfind, Hwhat, strictEqStr_refl.
  reflexivity.
Qed.

(** ** Intents without a dialog *)

(** X11.  An intent that is none of the case labels (an unknown string,
    or no string at all) gets no reply.  With no dialog active, the later
    dispatcher sends nothing, leaves the world as it was and returns the
    [complete] result of [dc.end()]; the early one sends nothing either
    and returns [empty]. *)
Theorem unknown_intent_gets_no_reply :
  forall (E : Env) (fuel : nat) (onTurnProperty intent : JSValue) (w : World),
    getProp onTurnProperty "intent" = inr intent ->
    (forall label : string,
        In label [QnADialog_Name (names E); ChitChatDialog_Name (names E);
                  HelpDialog_Name (names E); CancelDialog_Name (names E);
                  WhoAreYouDialog_Name (names E);
                  FindCafeLocationsDialog_Name (names E);
                  WhatCanYouDoDialog_Name (names E);
                  BookTableDialog_Name (names E); "None";
                  "Book_Table_Submit"; "Book_Table_Cancel"] ->
        intent <> JStr label) ->
    stack w = [] ->
    responded w = false ->
    V2.beginChildDialog E (S fuel) onTurnProperty JUndefined w = Ok RUndefined w
    /\ V2.mainDispatch E (S fuel) onTurnProperty w
       = Ok (RTurn (mkTurnResult complete JUndefined)) w
    /\ V1.onDialogContinue E onTurnProperty w = Ok (RTurn emptyTurnResult) w.
Proof.
  intros E fuel onTurnProperty intent w Hintent Hlabels Hidle Hsilent.
  assert (Hno : forall label,
             In label [QnADialog_Name (names E); ChitChatDialog_Name (names E);
                       HelpDialog_Name (names E); CancelDialog_Name (names E);
                       WhoAreYouDialog_Name (names E);
                       FindCafeLocationsDialog_Name (names E);
                       WhatCanYouDoDialog_Name (names E);
                       BookTableDialog_Name (names E); "None";
                       "Book_Table_Submit"; "Book_Table_Cancel"] ->
             strictEqStr intent label = false).
  { intros label Hin. apply strictEqStr_false. now apply Hlabels. }
  assert (Hbegin :
            V2.beginChildDialog E (S fuel) onTurnProperty JUndefined w
            = Ok RUndefined w).
  { rewrite (beginChildDialog_switch _ _ _ _ _ _ Hintent).
    unfold V2.NONE_INTENT.
    rewrite !Hno by (simpl; tauto). reflexivity. }
  assert (Hw : set_stack [] w = w).
  { destruct w; simpl in Hidle; subst; reflexivity. }
  split; [exact Hbegin|]. split.
  - unfold V2.mainDispatch, bind at 1. rewrite Hintent. cbn [lift ret].
    unfold bind at 1, gets, V2.isRequestedOperationPossible.
    rewrite !Hno by (simpl; tauto). cbn [allowed negb].
    unfold V2.continueOrBegin, bind, gets, dc_continue.
    rewrite Hidle, Hsilent. cbn [negb]. rewrite Hbegin.
    cbn [V2.reconcile]. unfold dc_end. rewrite Hidle. cbn [tl].
    now rewrite Hw.
  - unfold V1.onDialogContinue, bind at 1. rewrite Hintent. cbn [lift ret].
    unfold bind at 1, gets, V1.isRequestedOperationPossible.
    rewrite !Hno by (simpl; tauto). cbn [orb allowed negb].
    unfold bind, dc_continue. rewrite Hidle. cbn [status_eqb status emptyTurnResult negb].
    unfold V1.statusSwitch, V1.beginChildDialog, bind, lift, ret.
    cbn [status emptyTurnResult]. rewrite Hintent.
    rewrite !Hno by (simpl; tauto). reflexivity.
Qed.

Lemma unknown_intent_gets_no_reply_witness :
  V2.mainDispatch (cafeEnv None false emptyTurnResult) 1
                  (OnTurnProperty (JStr "Weather") (JArr [])) (turnStart [] None)
  = Ok (RTurn (mkTurnResult complete JUndefined)) (turnStart [] None)
  /\ V1.onDialogContinue (cafeEnv None false emptyTurnResult)
                         (OnTurnProperty (JStr "Weather") (JArr []))
                         (turnStart [] None)
     = Ok (RTurn emptyTurnResult) (turnStart [] None).
Proof.
  destruct (unknown_intent_gets_no_reply
              (cafeEnv None false emptyTurnResult) 0
              (OnTurnProperty (JStr "Weather") (JArr [])) (JStr "Weather")
              (turnStart [] None) eq_refl)
    as [_ [Hlater Hearly]].
  - simpl. intros label Hin.
    repeat (destruct Hin as [<- | Hin]; [discriminate|]). contradiction.
  - reflexivity.
  - reflexivity.
  - split; assumption.
Defined.

(** X12.  The [None] intent is answered with two messages, an apology
    and a web-search link that quotes the text of the incoming activity;
    no dialog is begun and nothing but the outbox changes. *)
Theorem none_intent_points_to_web_search :
  forall (E : Env) (fuel : nat) (onTurnProperty payload : JSValue) (w : World),
    ~ In V2.NONE_INTENT
         [QnADialog_Name (names E); ChitChatDialog_Name (names E);
          HelpDialog_Name (names E); CancelDialog_Name (names E);
          WhoAreYouDialog_Name (names E);
          FindCafeLocationsDialog_Name (names E);
          WhatCanYouDoDialog_Name (names E)] ->
    getProp onTurnProperty "intent" = inr (JStr V2.NONE_INTENT) ->
    exists r w',
      V2.beginChildDialog E (S fuel) onTurnProperty payload w = Ok r w'
      /\ outbox w'
         = (outbox w
            ++ [Text "I'm still learning.. Sorry, I do not know how to help you with that.";
                Text ("Follow [this link](https://www.bing.com/search?q="
                      ++ toStr (activity_text w) ++ ") to search the web!")])%list
      /\ stack w' = stack w
      /\ userProfile w' = userProfile w
      /\ activity_text w' = activity_text w.
Proof.
  intros E fuel onTurnProperty payload w Hlabels Hintent.
  rewrite (beginChildDialog_none _ _ _ _ _ Hlabels Hintent).
  unfold sendActivity. eexists. eexists. split; [reflexivity|].
  cbn [outbox sent stack userProfile activity_text].
  rewrite <- app_assoc. now repeat split.
Qed.

Lemma none_intent_points_to_web_search_witness :
  exists r w',
    V2.beginChildDialog (cafeEnv None false emptyTurnResult) 1
                        noneTurn JUndefined (turnStart [] None) = Ok r w'
    /\ outbox w'
       = [Text "I'm still learning.. Sorry, I do not know how to help you with that.";
          Text "Follow [this link](https://www.bing.com/search?q=hi) to search the web!"]
    /\ stack w' = [].
Proof.
  destruct (none_intent_points_to_web_search
              (cafeEnv None false emptyTurnResult) 0 noneTurn JUndefined
              (turnStart [] None))
    as [r [w' [Hrun [Hout [Hstack _]]]]].
  - simpl. intuition discriminate.
  - reflexivity.
  - exists r, w'. repeat split; assumption.
Defined.

(** ** The "who are you" helper, in full *)







(** X15.  A "who are you" turn whose first user-name entity has no
    string at index 0 of its value (an empty array, a number, a missing
    value) throws a [TypeError] before the profile is written or anything
    is sent: the world is the one the turn started with. *)
Theorem reintroduction_with_bad_value_throws :
  forall (E : Env) (fuel : nat) (onTurnProperty payload first value : JSValue)
         (others : list JSValue) (w : World),
    ~ In (WhoAreYouDialog_Name (names E))
         [QnADialog_Name (names E); ChitChatDialog_Name (names E);
          HelpDialog_Name (names E); CancelDialog_Name (names E)] ->
    getProp onTurnProperty "intent"
    = inr (JStr (WhoAreYouDialog_Name (names E))) ->
    entitiesNamed V2.USER_NAME_ENTITY onTurnProperty = inr (first :: others) ->
    getProp first "entityValue" = inr value ->
    (forall s : string, index0 value <> inr (JStr s)) ->
    exists e : Exn,
      V2.beginChildDialog E (S fuel) onTurnProperty payload w = Throw e w.
Proof.
  intros E fuel onTurnProperty payload first value others w
         Hlabels Hintent Hnamed Hvalue Hbad.
  rewrite (beginChildDialog_who _ _ _ _ _ Hlabels Hintent).
  unfold V2.beginWhoAreYouDialog, bind, gets, lift, ret, throw.
  rewrite Hnamed. cbv beta iota. rewrite Hvalue. cbv beta iota.
  destruct (index0 value) as [e|u] eqn:Hfirst; [now eexists|].
  destruct u; try (now eexists).
  now elim (Hbad s).
Qed.

Lemma reintroduction_with_bad_value_throws_witness :
  exists e : Exn,
    V2.beginChildDialog (cafeEnv None false emptyTurnResult) 1
      (OnTurnProperty (JStr "WhoAreYou")
                      (entitiesOf [("userName_patternAny", JArr [])]))
      JUndefined (turnStart [] None)
    = Throw e (turnStart [] None).
Proof.
  apply (reintroduction_with_bad_value_throws
           (cafeEnv None false emptyTurnResult) 0
           (OnTurnProperty (JStr "WhoAreYou")
                           (entitiesOf [("userName_patternAny", JArr [])]))
           JUndefined
           (entityProperty "userName_patternAny" (JArr [])) (JArr []) []
           (turnStart [] None)).
  - simpl. intuition discriminate.
  - reflexivity.
  - reflexivity.
  - reflexivity.
  - intros s. discriminate.
Defined.



Lemma upcase_idempotent (c : ascii) : upcase (upcase c) = upcase c.
Proof.
  destruct c as [[|] [|] [|] [|] [|] [|] [|] [|]]; reflexivity.
Qed.

(** X17.  Capitalizing a name only touches its first character: the
    length and the rest of the name stay, the empty name stays empty, and
    capitalizing twice is the same as capitalizing once. *)
Theorem capitalize_touches_first_character_only :
  forall s : string,
    capitalize (capitalize s) = capitalize s
    /\ String.length (capitalize s) = String.length s
    /\ (forall n : nat, (0 < n)%nat -> String.get n (capitalize s) = String.get n s)
    /\ (capitalize s = "" <-> s = "").
Proof.
  intros [|c rest]; simpl.
  - repeat split; auto.
  - split; [now rewrite upcase_idempotent|]. split; [reflexivity|]. split.
    + intros [|n] Hn; [lia|reflexivity].
    + split; discriminate.
Qed.

Lemma capitalize_touches_first_character_only_witness :
  String.get 1 (capitalize "alice") = String.get 1 "alice".
Proof.
  apply (proj1 (proj2 (proj2 (capitalize_touches_first_character_only "alice")))).
  lia.
Defined.

(** ** The "what can you do" helper, in full *)

Lemma beginWhatCanYouDoDialog_parsed :
  forall (E : Env) (again : JSValue -> M Returned)
         (onTurnProperty first value parsedJSON text : JSValue)
         (others : list JSValue) (w : World),
    entitiesNamed V2.QUERY_PROPERTY onTurnProperty = inr (first :: others) ->
    getProp first "entityValue" = inr value ->
    JSON_parse E value = Some parsedJSON ->
    getProp parsedJSON "text" = inr text ->
    V2.beginWhatCanYouDoDialog E again onTurnProperty w
    = match text with
      | JUndefined => again parsedJSON w
      | _ => again parsedJSON
                   (sent (Text ("You said: '" ++ toStr text ++ "'"))
                         (set_activity_text text w))
      end.
Proof.
  intros E again onTurnProperty first value parsedJSON text others w
         Hquery Hvalue Hparse Htext.
  unfold V2.beginWhatCanYouDoDialog, bind at 1, lift at 1, ret.
  rewrite Hquery. cbv beta iota.
  unfold bind at 1, lift at 1, ret. rewrite Hvalue. cbv beta iota.
  rewrite Hparse. unfold bind, lift, ret. rewrite Htext.
  destruct text; reflexivity.
Qed.



(** X19.  A query entity that parses to [null] makes the helper throw:
    the parse succeeds, so the corrective message is not sent, and reading
    [text] of the parsed value fails with nothing sent and nothing
    changed. *)
Theorem card_query_null_throws :
  forall (E : Env) (fuel : nat)
         (onTurnProperty payload first value : JSValue)
         (others : list JSValue) (w : World),
    ~ In (WhatCanYouDoDialog_Name (names E))
         [QnADialog_Name (names E); ChitChatDialog_Name (names E);
          HelpDialog_Name (names E); CancelDialog_Name (names E);
          WhoAreYouDialog_Name (names E);
          FindCafeLocationsDialog_Name (names E)] ->
    getProp onTurnProperty "intent"
    = inr (JStr (WhatCanYouDoDialog_Name (names E))) ->
    entitiesNamed V2.QUERY_PROPERTY onTurnProperty = inr (first :: others) ->
    getProp first "entityValue" = inr value ->
    JSON_parse E value = Some JNull ->
    V2.beginChildDialog E (S fuel) onTurnProperty payload w
    = Throw (TypeError "Cannot read property text") w.
Proof.
  intros E fuel onTurnProperty payload first value others w
         Hlabels Hintent Hquery Hvalue Hparse.
  rewrite (beginChildDialog_what _ _ _ _ _ Hlabels Hintent).
  unfold V2.beginWhatCanYouDoDialog, bind at 1, lift at 1, ret.
  rewrite Hquery. cbv beta iota.
  unfold bind at 1, lift at 1, ret. rewrite Hvalue. cbv beta iota.
  rewrite Hparse. reflexivity.
Qed.

Lemma card_query_null_throws_witness :
  V2.beginChildDialog (parsingEnv "null" JNull) 2
    (OnTurnProperty (JStr "WhatCanYouDo") (entitiesOf [("query", JStr "null")]))
    JUndefined (turnStart [] None)
  = Throw (TypeError "Cannot read property text") (turnStart [] None).
Proof.
  apply (card_query_null_throws
           (parsingEnv "null" JNull) 1
           (OnTurnProperty (JStr "WhatCanYouDo")
                           (entitiesOf [("query", JStr "null")]))
           JUndefined (entityProperty "query" (JStr "null")) (JStr "null") []
           (turnStart [] None)
           ltac:(simpl; intuition discriminate)
           eq_refl eq_refl eq_refl eq_refl).
Defined.

(** X20.  A card query for something the bot has no dialog for (its
    parsed value names the [None] intent and gives a text): the user gets
    the echo, the apology and a web-search link, and the link quotes the
    text of the card, not the text the turn came in with. *)
Theorem card_query_for_unknown_topic :
  forall (E : Env) (fuel : nat)
         (onTurnProperty payload first value parsedJSON : JSValue)
         (others : list JSValue) (t : string) (w : World),
    ~ In (WhatCanYouDoDialog_Name (names E))
         [QnADialog_Name (names E); ChitChatDialog_Name (names E);
          HelpDialog_Name (names E); CancelDialog_Name (names E);
          WhoAreYouDialog_Name (names E);
          FindCafeLocationsDialog_Name (names E)] ->
    ~ In V2.NONE_INTENT
         [QnADialog_Name (names E); ChitChatDialog_Name (names E);
          HelpDialog_Name (names E); CancelDialog_Name (names E);
          WhoAreYouDialog_Name (names E);
          FindCafeLocationsDialog_Name (names E);
          WhatCanYouDoDialog_Name (names E)] ->
    getProp onTurnProperty "intent"
    = inr (JStr (WhatCanYouDoDialog_Name (names E))) ->
    entitiesNamed V2.QUERY_PROPERTY onTurnProperty = inr (first :: others) ->
    getProp first "entityValue" = inr value ->
    JSON_parse E value = Some parsedJSON ->
    getProp parsedJSON "text" = inr (JStr t) ->
    getProp parsedJSON "intent" = inr (JStr V2.NONE_INTENT) ->
    exists r w',
      V2.beginChildDialog E (S (S fuel)) onTurnProperty payload w = Ok r w'
      /\ outbox w'
         = (outbox w
            ++ [Text ("You said: '" ++ t ++ "'");
                Text "I'm still learning.. Sorry, I do not know how to help you with that.";
                Text ("Follow [this link](https://www.bing.com/search?q="
                      ++ t ++ ") to search the web!")])%list
      /\ activity_text w' = JStr t
      /\ stack w' = stack w.
Proof.
  intros E fuel onTurnProperty payload first value parsedJSON others t w
         Hwhat Hnone Hintent Hquery Hvalue Hparse Htext Hparsed.
  rewrite (beginChildDialog_what _ _ _ _ _ Hwhat Hintent).
  rewrite (beginWhatCanYouDoDialog_parsed
             _ _ _ _ _ _ _ _ _ Hquery Hvalue Hparse Htext).
  rewrite (beginChildDialog_none _ _ _ _ _ Hnone Hparsed).
  unfold sendActivity. eexists. eexists. split; [reflexivity|].
  cbn [outbox sent set_activity_text activity_text stack toStr].
  rewrite <- !app_assoc. now repeat split.
Qed.

Lemma card_query_for_unknown_topic_witness :
  exists r w',
    V2.beginChildDialog
      (parsingEnv jokeCard (JObj [("text", JStr "tell me a joke");
                                  ("intent", JStr "None")]))
      2
      (OnTurnProperty (JStr "WhatCanYouDo") (entitiesOf [("query", JStr jokeCard)]))
      JUndefined (turnStart [] None) = Ok r w'
    /\ outbox w'
       = [Text "You said: 'tell me a joke'";
          Text "I'm still learning.. Sorry, I do not know how to help you with that.";
          Text "Follow [this link](https://www.bing.com/search?q=tell me a joke) to search the web!"].
Proof.
  destruct (card_query_for_unknown_topic
              (parsingEnv jokeCard (JObj [("text", JStr "tell me a joke");
                                          ("intent", JStr "None")]))
              0
              (OnTurnProperty (JStr "WhatCanYouDo")
                              (entitiesOf [("query", JStr jokeCard)]))
              JUndefined (entityProperty "query" (JStr jokeCard))
              (JStr jokeCard)
              (JObj [("text", JStr "tell me a joke"); ("intent", JStr "None")])
              [] "tell me a joke" (turnStart [] None)
              ltac:(simpl; intuition discriminate)
              ltac:(simpl; intuition discriminate)
              eq_refl eq_refl eq_refl eq_refl eq_refl eq_refl)
    as [r [w' [Hrun [Hout _]]]].
  exists r, w'. split; assumption.
Defined.

(** ** Looking entities up *)





(** ** Turn properties from LUIS results and from cards *)

Lemma filter_map_pairs {A B : Type} (f : A -> B) (p : B -> bool) (l : list A) :
  filter p (map f l) = map f (filter (fun x => p (f x)) l).
Proof.
  induction l as [|x l IH]; [reflexivity|].
  cbn [map filter]. rewrite IH. now destruct (p (f x)).
Qed.

Lemma NoDup_filter_eqb (x : string) (l : list string) :
  NoDup l ->
  filter (fun e => e =? x) l = if existsb (fun e => e =? x) l then [x] else [].
Proof.
  induction 1 as [|y l Hnotin Hnd IH]; [reflexivity|].
  cbn [filter existsb]. destruct (String.eqb_spec y x) as [->|Hneq].
  - cbn [orb]. rewrite IH.
    destruct (existsb (fun e => e =? x) l) eqn:Hex; [|reflexivity].
    apply existsb_exists in Hex. destruct Hex as [z [Hin Hz]].
    apply String.eqb_eq in Hz. subst z. now elim Hnotin.
  - cbn [orb]. exact IH.
Qed.

Lemma existsb_eqb_In (x : string) (l : list string) :
  existsb (fun e => e =? x) l = true <-> In x l.
Proof.
  rewrite existsb_exists. split.
  - intros [y [Hin Hy]]. apply String.eqb_eq in Hy. now subst.
  - intro Hin. exists x. split; [exact Hin | apply String.eqb_refl].
Qed.

Lemma fromLUISResults_entities (topIntent : string) (LUIS_ENTITIES : list string)
      (entities : list (string * JSValue)) :
  fromLUISResults topIntent LUIS_ENTITIES entities
  = OnTurnProperty
      (JStr topIntent)
      (entitiesOf (map (fun e => (e, lookup e entities))
                       (filter (fun e => hasKey e entities) LUIS_ENTITIES))).
Proof.
  assert (Hitems :
            flat_map
              (fun luisEntity =>
                 if hasKey luisEntity entities
                 then [entityProperty luisEntity (lookup luisEntity entities)]
                 else [])
              LUIS_ENTITIES
            = map (fun nv => entityProperty (fst nv) (snd nv))
                  (map (fun e => (e, lookup e entities))
                       (filter (fun e => hasKey e entities) LUIS_ENTITIES))).
  { induction LUIS_ENTITIES as [|e l IH]; [reflexivity|].
    cbn [flat_map filter]. rewrite IH.
    destruct (hasKey e entities); reflexivity. }
  unfold fromLUISResults, OnTurnProperty, entitiesOf. cbn [truthy].
  rewrite Hitems. destruct topIntent; reflexivity.
Qed.

(** X22.  The turn property built from LUIS results carries the top
    intent, and for every name on the [LUIS_ENTITIES] list that the result
    has a value for, exactly one entity with that value.  A value LUIS
    found under a name that is not on the list is dropped, and a listed
    name without a value gives no entity. *)
Theorem luis_entities_round_trip :
  forall (topIntent : string) (LUIS_ENTITIES : list string)
         (entities : list (string * JSValue)) (name : string),
    NoDup LUIS_ENTITIES ->
    getProp (fromLUISResults topIntent LUIS_ENTITIES entities) "intent"
    = inr (JStr topIntent)
    /\ (In name LUIS_ENTITIES ->
        hasKey name entities = true ->
        entitiesNamed name (fromLUISResults topIntent LUIS_ENTITIES entities)
        = inr [entityProperty name (lookup name entities)])
    /\ (~ In name LUIS_ENTITIES \/ hasKey name entities = false ->
        entitiesNamed name (fromLUISResults topIntent LUIS_ENTITIES entities)
        = inr []).
Proof.
  intros topIntent LUIS_ENTITIES entities name Hnd.
  split; [reflexivity|].
  rewrite fromLUISResults_entities, entitiesNamed_entities.
  rewrite filter_map_pairs. cbn [fst].
  assert (Hfilter :
            filter (fun e => e =? name)
                   (filter (fun e => hasKey e entities) LUIS_ENTITIES)
            = if existsb (fun e => e =? name) LUIS_ENTITIES
                 && hasKey name entities
              then [name] else []).
  { rewrite (NoDup_filter_eqb name) by now apply NoDup_filter.
    destruct (existsb (fun e => e =? name)
                      (filter (fun e => hasKey e entities) LUIS_ENTITIES))
             eqn:Hex.
    - apply existsb_eqb_In, filter_In in Hex. destruct Hex as [Hin Hkey].
      rewrite Hkey, (proj2 (existsb_eqb_In name LUIS_ENTITIES) Hin).
      reflexivity.
    - destruct (existsb (fun e => e =? name) LUIS_ENTITIES) eqn:Hin;
        [|reflexivity].
      destruct (hasKey name entities) eqn:Hkey; [|reflexivity].
      apply existsb_eqb_In in Hin.
      assert (Hboth : In name (filter (fun e => hasKey e entities) LUIS_ENTITIES))
        by (apply filter_In; now split).
      apply existsb_eqb_In in Hboth. congruence. }
  rewrite Hfilter. split.
  - intros Hin Hkey.
    now rewrite (proj2 (existsb_eqb_In name LUIS_ENTITIES) Hin), Hkey.
  - intros [Hnotin | Hnokey].
    + destruct (existsb (fun e => e =? name) LUIS_ENTITIES) eqn:Hex;
        [|reflexivity].
      apply existsb_eqb_In in Hex. now elim Hnotin.
    + rewrite Hnokey, andb_false_r. reflexivity.
Qed.

Lemma luis_entities_round_trip_witness :
  entitiesNamed "userName_patternAny"
    (fromLUISResults "WhoAreYou" ["userName"; "userName_patternAny"]
                     [("userName_patternAny", JArr [JStr "alice"]);
                      ("cafeLocation", JArr [JStr "seattle"])])
  = inr [entityProperty "userName_patternAny" (JArr [JStr "alice"])]
  /\ entitiesNamed "cafeLocation"
       (fromLUISResults "WhoAreYou" ["userName"; "userName_patternAny"]
                        [("userName_patternAny", JArr [JStr "alice"]);
                         ("cafeLocation", JArr [JStr "seattle"])])
     = inr [].
Proof.
  destruct (luis_entities_round_trip
              "WhoAreYou" ["userName"; "userName_patternAny"]
              [("userName_patternAny", JArr [JStr "alice"]);
               ("cafeLocation", JArr [JStr "seattle"])]
              "userName_patternAny")
    as [_ [Hfound _]].
  { repeat (constructor; [simpl; intuition discriminate|]). constructor. }
  destruct (luis_entities_round_trip
              "WhoAreYou" ["userName"; "userName_patternAny"]
              [("userName_patternAny", JArr [JStr "alice"]);
               ("cafeLocation", JArr [JStr "seattle"])]
              "cafeLocation")
    as [_ [_ Hdropped]].
  { repeat (constructor; [simpl; intuition discriminate|]). constructor. }
  split.
  - apply Hfound; [simpl; tauto | reflexivity].
  - apply Hdropped. left. simpl. intuition discriminate.
Defined.

Lemma cardStep_fold (cardValue : list (string * JSValue)) (keys : list string) :
  forall (intent : JSValue) (entities : list JSValue),
    fold_left (cardStep cardValue) keys (intent, entities)
    = (lastIntent cardValue keys intent,
       (entities
        ++ map (fun key => entityProperty key (lookup key cardValue))
               (filter (fun key => negb (isIntentKey key)) keys))%list).
Proof.
  induction keys as [|key keys IH]; intros intent entities.
  - cbn [fold_left lastIntent filter map]. now rewrite app_nil_r.
  - cbn [fold_left lastIntent filter]. unfold cardStep at 2. cbn [fst snd].
    destruct (isIntentKey key); cbn [negb].
    + apply IH.
    + rewrite IH. cbn [map]. now rewrite <- app_assoc.
Qed.

(** X23.  The turn property built from a card whose keys are ASCII
    text.  Every field whose key reads [intent] once lower-cased and
    trimmed sets the intent, the last such field winning and the empty
    string standing in when there is none; every other field becomes an
    entity under its own key, in the order of the fields.  A card with a
    field named [hasOwnProperty] makes [fromCardInput] throw. *)
Theorem card_fields_become_intent_and_entities :
  forall cardValue : list (string * JSValue),
    (forallb isAsciiText (map fst cardValue) = true ->
     hasKey "hasOwnProperty" cardValue = false ->
     fromCardInput cardValue
     = inr (JObj [("intent", lastIntent cardValue (map fst cardValue) (JStr ""));
                  ("entities",
                   JArr (map (fun key => entityProperty key (lookup key cardValue))
                             (filter (fun key => negb (isIntentKey key))
                                     (map fst cardValue))))]))
    /\ (hasKey "hasOwnProperty" cardValue = true ->
        exists e, fromCardInput cardValue = inl e).
Proof.
  intro cardValue. unfold fromCardInput. split.
  - intros _ ->. now rewrite cardStep_fold.
  - intros ->. now eexists.
Qed.

Lemma card_fields_become_intent_and_entities_witness :
  fromCardInput [("query", JStr findCard); (" Intent ", JStr "WhatCanYouDo")]
  = inr (OnTurnProperty (JStr "WhatCanYouDo")
                        (entitiesOf [("query", JStr findCard)]))
  /\ exists e,
      fromCardInput [("intent", JStr "WhatCanYouDo");
                     ("hasOwnProperty", JStr "no")] = inl e.
Proof.
  split.
  - rewrite (proj1 (card_fields_become_intent_and_entities
                      [("query", JStr findCard);
                       (" Intent ", JStr "WhatCanYouDo")]) eq_refl eq_refl).
    reflexivity.
  - apply (proj2 (card_fields_become_intent_and_entities
                    [("intent", JStr "WhatCanYouDo");
                     ("hasOwnProperty", JStr "no")]) eq_refl).
Defined.

Lemma lookup_In (k : string) (v : JSValue) (fields : list (string * JSValue)) :
  NoDup (map fst fields) -> In (k, v) fields -> lookup k fields = v.
Proof.
  induction fields as [|[k' v'] fields IH]; [contradiction|].
  cbn [map fst lookup]. intros Hnd [Heq | Hin].
  - injection Heq as -> ->. now rewrite String.eqb_refl.
  - inversion Hnd as [|? ? Hnotin Hnd']. subst.
    destruct (String.eqb_spec k' k) as [->|_].
    + elim Hnotin. apply in_map_iff. now exists (k, v).
    + now apply IH.
Qed.

(** X24.  A card field can be looked up again as an entity.  For a card
    with distinct keys in ASCII text and no [hasOwnProperty] field, a
    field whose key is
    not an intent key yields exactly one entity of that name, carrying the
    field's value; so the dispatcher's lookup of [query] finds what the
    card put there. *)
Theorem card_field_round_trip :
  forall (cardValue : list (string * JSValue)) (name : string) (value : JSValue),
    NoDup (map fst cardValue) ->
    forallb isAsciiText (map fst cardValue) = true ->
    hasKey "hasOwnProperty" cardValue = false ->
    In (name, value) cardValue ->
    isIntentKey name = false ->
    exists onTurnProperty,
      fromCardInput cardValue = inr onTurnProperty
      /\ entitiesNamed name onTurnProperty = inr [entityProperty name value].
Proof.
  intros cardValue name value Hnd _ Hown Hin Hkey.
  unfold fromCardInput. rewrite Hown, cardStep_fold. cbn [fst snd app].
  eexists. split; [reflexivity|].
  unfold entitiesNamed. cbn [getProp lookup String.eqb Ascii.eqb Bool.eqb truthy].
  rewrite <- (map_map (fun key => (key, lookup key cardValue))
                      (fun nv => entityProperty (fst nv) (snd nv))).
  rewrite filterItems_entities, filter_map_pairs. cbn [fst].
  assert (Hkeys : NoDup (filter (fun key => negb (isIntentKey key))
                                (map fst cardValue)))
    by now apply NoDup_filter.
  rewrite (NoDup_filter_eqb name _ Hkeys).
  assert (Hthere : In name (filter (fun key => negb (isIntentKey key))
                                   (map fst cardValue))).
  { apply filter_In. split.
    - apply in_map_iff. now exists (name, value).
    - now rewrite Hkey. }
  rewrite (proj2 (existsb_eqb_In name _) Hthere).
  cbn [map fst snd]. now rewrite (lookup_In _ _ _ Hnd Hin).
Qed.

Lemma card_field_round_trip_witness :
  exists onTurnProperty,
    fromCardInput [("intent", JStr "WhatCanYouDo"); ("query", JStr findCard)]
    = inr onTurnProperty
    /\ entitiesNamed "query" onTurnProperty
       = inr [entityProperty "query" (JStr findCard)].
Proof.
  apply (card_field_round_trip
           [("intent", JStr "WhatCanYouDo"); ("query", JStr findCard)]
           "query" (JStr findCard)).
  - repeat (constructor; [simpl; intuition discriminate|]). constructor.
  - reflexivity.
  - reflexivity.
  - right. now left.
  - reflexivity.
Defined.

(** ** One dialog for three intents *)

(** X25.  The QnA, chit-chat and help intents share one dialog, whatever
    the other dialogs are called: the later dispatcher begins the QnA
    dialog for each of them (the frame pushed carries the QnA name, and no
    payload is passed), and the early dispatcher calls the QnA dialog's
    turn handler. *)
Theorem qna_serves_chitchat_and_help :
  forall (E : Env) (fuel : nat) (onTurnProperty payload : JSValue)
         (name : string) (w : World),
    getProp onTurnProperty "intent" = inr (JStr name) ->
    In name [QnADialog_Name (names E); ChitChatDialog_Name (names E);
             HelpDialog_Name (names E)] ->
    V2.beginChildDialog E (S fuel) onTurnProperty payload w
    = dc_begin E (QnADialog_Name (names E)) JUndefined w
    /\ V1.beginChildDialog E onTurnProperty w
       = (let (r, w') := qnaOnTurn E w in Ok r w').
Proof.
  intros E fuel onTurnProperty payload name w Hintent Hin.
  assert (Hfirst :
            strictEqStr (JStr name) (QnADialog_Name (names E))
            || strictEqStr (JStr name) (ChitChatDialog_Name (names E))
            || strictEqStr (JStr name) (HelpDialog_Name (names E)) = true).
  { destruct Hin as [<- | [<- | [<- | []]]];
      rewrite strictEqStr_refl; repeat rewrite orb_true_r; reflexivity. }
  split.
  - rewrite (beginChildDialog_switch _ _ _ _ _ _ Hintent).
    now rewrite Hfirst.
  - unfold V1.beginChildDialog, bind, lift, ret. rewrite Hintent.
    now rewrite Hfirst.
Qed.

Lemma qna_serves_chitchat_and_help_witness :
  V2.beginChildDialog (cafeEnv None false emptyTurnResult) 1
    (OnTurnProperty (JStr "ChitChat") (JArr [])) (JStr "ignored")
    (turnStart [] None)
  = Ok (RTurn (mkTurnResult waiting JUndefined))
       (sent (Text "begin QnA")
             (set_stack [mkInstance "QnA" (JObj [])] (turnStart [] None)))
  /\ V1.beginChildDialog (cafeEnv None false emptyTurnResult)
       (OnTurnProperty (JStr "Help") (JArr [])) (turnStart [] None)
     = Ok RUndefined (sent (Text "QnA answer") (turnStart [] None)).
Proof.
  split.
  - rewrite (proj1 (qna_serves_chitchat_and_help
                      (cafeEnv None false emptyTurnResult) 0
                      (OnTurnProperty (JStr "ChitChat") (JArr []))
                      (JStr "ignored") "ChitChat" (turnStart [] None)
                      eq_refl ltac:(simpl; tauto))).
    reflexivity.
  - rewrite (proj2 (qna_serves_chitchat_and_help
                      (cafeEnv None false emptyTurnResult) 0
                      (OnTurnProperty (JStr "Help") (JArr []))
                      JUndefined "Help" (turnStart [] None)
                      eq_refl ltac:(simpl; tauto))).
    reflexivity.
Defined.
